(** * P1 multicast: the telegram decoder (P1listener.py) and the
      aggregation engine (P1reader.py), embedded in Rocq.

    The Python sources are embedded shallowly.  Python's dynamically typed
    scalars are a sum type [value]; exceptions are an explicit outcome;
    [float] is IEEE binary64, computed with the Standard Library's
    [SpecFloat]; dictionaries are stdpp's [gmap]; text is [string]
    (a sequence of 8-bit characters). *)

From Stdlib Require Import ZArith List String Ascii Bool Lia.
From Stdlib Require Import Floats.SpecFloat.
From stdpp Require Import base option gmap strings list fin_maps.

Local Open Scope string_scope.
Local Open Scope list_scope.
Local Open Scope Z_scope.

(* ===================================================================== *)
(** ** Binary64 arithmetic *)
(* ===================================================================== *)

Module F64.

Definition prec : Z := 53.
Definition emax : Z := 1024.

Definition add := SFadd prec emax.
Definition sub := SFsub prec emax.
Definition mul := SFmul prec emax.
Definition div := SFdiv prec emax.

(** The double nearest to the integer [z] (ties to even), as Python's
    [float(z)] computes it; an integer beyond the range gives an
    infinity here, which the callers turn into [OverflowError]. *)
Definition of_Z (z : Z) : spec_float := binary_normalize prec emax z 0 false.

(** The double nearest to [(-1)^s * n / d] for positive [d]: one
    correctly rounded division of two exact operands. *)
Definition of_ratio (s : bool) (n : Z) (d : positive) : spec_float :=
  match n with
  | Zpos m => div (S754_finite s m 0) (S754_finite false d 0)
  | _ => S754_zero s
  end.

Definition is_zero (f : spec_float) : bool :=
  match f with S754_zero _ => true | _ => false end.

Definition is_finite (f : spec_float) : bool :=
  match f with S754_zero _ | S754_finite _ _ _ => true | _ => false end.

(** Magnitude of a finite double rounded towards zero, and whether
    anything was cut off. *)
Definition mag_trunc (m : positive) (e : Z) : Z * bool :=
  match e with
  | Zneg k => (Z.shiftr (Zpos m) (Zpos k),
               negb (Z.shiftl (Z.shiftr (Zpos m) (Zpos k)) (Zpos k) =? Zpos m))
  | _ => (Z.shiftl (Zpos m) e, false)
  end.

(** [int(f)]: rounding towards zero; [None] on NaN and infinities. *)
Definition trunc (f : spec_float) : option Z :=
  match f with
  | S754_zero _ => Some 0
  | S754_finite s m e => Some (cond_Zopp s (fst (mag_trunc m e)))
  | _ => None
  end.

(** Rounding towards minus infinity; [None] on NaN and infinities. *)
Definition floor (f : spec_float) : option Z :=
  match f with
  | S754_zero _ => Some 0
  | S754_finite s m e =>
      let '(q, cut) := mag_trunc m e in
      Some (if s then (if cut then - q - 1 else - q) else q)
  | _ => None
  end.

End F64.

(* ===================================================================== *)
(** ** Python scalars, exceptions and built-ins *)
(* ===================================================================== *)

Module Py.

(** The scalars a telegram field or a meta field can hold after
    [json.loads]: [int], [float] and [str]. *)
Inductive value :=
| VInt (z : Z)
| VFloat (f : spec_float)
| VStr (s : string).

Inductive exn :=
| KeyError
| TypeError
| ValueError
| NameError
| ZeroDivisionError
| OverflowError.

Inductive outcome (A : Type) :=
| Ok (a : A)
| Raise (e : exn).
Arguments Ok {A} a.
Arguments Raise {A} e.

#[global] Instance outcome_bind : MBind outcome := fun A B k x =>
  match x with
  | Ok a => k a
  | Raise e => Raise e
  end.
#[global] Instance outcome_ret : MRet outcome := @Ok.

#[global] Instance exn_eq_dec : EqDecision exn.
Proof. solve_decision. Defined.

(** *** Text *)

(** A [str] is held as the bytes of its UTF-8 encoding; a line of the P1
    port is ASCII, one byte a character. *)

Definition a2z (c : ascii) : Z := Z.of_N (N_of_ascii c).

Definition is_digit (c : ascii) : bool := (48 <=? a2z c) && (a2z c <=? 57).

Definition digit_val (c : ascii) : Z := a2z c - 48.

(** The white space that [int()] and [float()] skip around the literal
    in an ASCII string: tab, LF, VT, FF, CR and the space (not the
    separators 0x1c..0x1f, which [str.strip()] would remove).  Unicode
    white space and Unicode decimal digits, which they accept in a string
    that is not ASCII, are not recognised here: such a string is refused
    with [ValueError]. *)
Definition is_space (c : ascii) : bool :=
  ((9 <=? a2z c) && (a2z c <=? 13)) || (a2z c =? 32).

Fixpoint lstrip (s : string) : string :=
  match s with
  | String c s' => if is_space c then lstrip s' else s
  | EmptyString => s
  end.

Fixpoint rstrip (s : string) : string :=
  match s with
  | String c s' =>
      match rstrip s' with
      | EmptyString => if is_space c then EmptyString else String c EmptyString
      | r => String c r
      end
  | EmptyString => s
  end.

Definition strip (s : string) : string := rstrip (lstrip s).

(** [s.startswith(p)] *)
Fixpoint startswith (p s : string) : bool :=
  match p, s with
  | EmptyString, _ => true
  | String a p', String b s' => Ascii.eqb a b && startswith p' s'
  | String _ _, EmptyString => false
  end.

(** [sub in s] *)
Fixpoint contains (sub s : string) : bool :=
  startswith sub s ||
  match s with
  | String _ s' => contains sub s'
  | EmptyString => false
  end.

(** [s.split(sep)[0]] for a one-character separator. *)
Fixpoint split_head (sep : ascii) (s : string) : string :=
  match s with
  | String c s' => if Ascii.eqb c sep then EmptyString else String c (split_head sep s')
  | EmptyString => EmptyString
  end.

(** A byte that continues a character: [10xxxxxx]. *)
Definition is_continuation (c : ascii) : bool := (128 <=? a2z c) && (a2z c <=? 191).

(** The rest of [s] from its first byte that starts a character. *)
Fixpoint skip_continuation (s : string) : string :=
  match s with
  | String c s' => if is_continuation c then skip_continuation s' else s
  | EmptyString => s
  end.

(** [s[1:]]: [s] without its first character. *)
Definition tail (s : string) : string :=
  match s with
  | String _ s' => skip_continuation s'
  | EmptyString => EmptyString
  end.

(** The number of characters: the bytes that start one. *)
Fixpoint code_points (s : string) : nat :=
  match s with
  | String c s' => if is_continuation c then code_points s' else S (code_points s')
  | EmptyString => O
  end.

(** [len(s)] *)
Definition len (s : string) : Z := Z.of_nat (code_points s).

Definition lower (c : ascii) : ascii :=
  if (65 <=? a2z c) && (a2z c <=? 90) then ascii_of_N (N_of_ascii c + 32) else c.

Fixpoint lowercase (s : string) : string :=
  match s with
  | String c s' => String (lower c) (lowercase s')
  | EmptyString => EmptyString
  end.

(** *** Numeric literals in text *)

(** The tail of a [digitpart]: [(["_"] digit)*].  [acc] is the value read
    so far and [n] the number of digits read so far. *)
Fixpoint digitpart_more (s : string) (acc : Z) (n : Z) : Z * Z * string :=
  match s with
  | String c s' =>
      if is_digit c then digitpart_more s' (10 * acc + digit_val c) (n + 1)
      else if Ascii.eqb c "_" then
        match s' with
        | String d s'' =>
            if is_digit d then digitpart_more s'' (10 * acc + digit_val d) (n + 1)
            else (acc, n, s)
        | EmptyString => (acc, n, s)
        end
      else (acc, n, s)
  | EmptyString => (acc, n, s)
  end.

(** [digitpart ::= digit (["_"] digit)*], continuing from [acc] and [n]. *)
Definition digitpart (s : string) (acc n : Z) : option (Z * Z * string) :=
  match s with
  | String c s' =>
      if is_digit c then Some (digitpart_more s' (10 * acc + digit_val c) (n + 1))
      else None
  | EmptyString => None
  end.

(** An optional sign: [true] for minus. *)
Definition sign (s : string) : bool * string :=
  match s with
  | String c s' =>
      if Ascii.eqb c "-" then (true, s')
      else if Ascii.eqb c "+" then (false, s')
      else (false, s)
  | EmptyString => (false, s)
  end.

(** [int(s)] of a string in base 10: surrounding white space, an optional
    sign, one [digitpart]. *)
Definition int_of_str (s : string) : outcome Z :=
  let '(neg, r) := sign (strip s) in
  match digitpart r 0 0 with
  | Some (z, _, EmptyString) => Ok (if neg then - z else z)
  | _ => Raise ValueError
  end.

(** [number ::= [digitpart] "." digitpart | digitpart ["."]]: the digits
    read as one integer, and how many of them follow the point. *)
Definition number (s : string) : option (Z * Z * string) :=
  match digitpart s 0 0 with
  | Some (z, _, String "." r) =>
      match digitpart r z 0 with
      | Some res => Some res
      | None => Some (z, 0, r)
      end
  | Some (z, _, r) => Some (z, 0, r)
  | None =>
      match s with
      | String "." r => digitpart r 0 0
      | _ => None
      end
  end.

(** [exponent ::= ("e" | "E") [sign] digitpart], optional. *)
Definition exponent (s : string) : option (Z * string) :=
  match s with
  | EmptyString => Some (0, s)
  | String c r =>
      if Ascii.eqb (lower c) "e" then
        let '(neg, r') := sign r in
        match digitpart r' 0 0 with
        | Some (x, _, rest) => Some (if neg then - x else x, rest)
        | None => None
        end
      else Some (0, s)
  end.

(** [float(s)] of a string: the correctly rounded double. *)
Definition float_of_str (s : string) : outcome spec_float :=
  let '(neg, r) := sign (strip s) in
  let l := lowercase r in
  if String.eqb l "inf" || String.eqb l "infinity" then Ok (S754_infinity neg)
  else if String.eqb l "nan" then Ok S754_nan
  else
    match number r with
    | Some (n, k, r1) =>
        match exponent r1 with
        | Some (x, EmptyString) =>
            if n =? 0 then Ok (S754_zero neg)
            else if k <=? x then
              Ok (F64.of_Z ((if neg then - n else n) * 10 ^ (x - k)))
            else Ok (F64.of_ratio neg n (Z.to_pos (10 ^ (k - x))))
        | _ => Raise ValueError
        end
    | None => Raise ValueError
    end.

(** *** Arithmetic and comparison on scalars *)

(** A number as Python compares it: exactly.  [NFin m e] is [m * 2^e]. *)
Inductive num :=
| NNan
| NInf (neg : bool)
| NFin (m e : Z).

Definition num_of_float (f : spec_float) : num :=
  match f with
  | S754_zero _ => NFin 0 0
  | S754_infinity s => NInf s
  | S754_nan => NNan
  | S754_finite s m e => NFin (cond_Zopp s (Zpos m)) e
  end.

Definition num_compare (a b : num) : option comparison :=
  match a, b with
  | NNan, _ | _, NNan => None
  | NInf s1, NInf s2 =>
      Some (if s1 then (if s2 then Eq else Lt) else (if s2 then Gt else Eq))
  | NInf s, NFin _ _ => Some (if s then Lt else Gt)
  | NFin _ _, NInf s => Some (if s then Gt else Lt)
  | NFin m1 e1, NFin m2 e2 =>
      let e := Z.min e1 e2 in
      Some (Z.compare (m1 * 2 ^ (e1 - e)) (m2 * 2 ^ (e2 - e)))
  end.

Definition as_num (v : value) : option num :=
  match v with
  | VInt z => Some (NFin z 0)
  | VFloat f => Some (num_of_float f)
  | VStr _ => None
  end.

(** The three-way comparison behind [<] and [>]: [TypeError] between a
    string and a number, [None] when a NaN is involved. *)
Definition py_compare (a b : value) : outcome (option comparison) :=
  match a, b with
  | VStr x, VStr y => Ok (Some (String.compare x y))
  | _, _ =>
      match as_num a, as_num b with
      | Some x, Some y => Ok (num_compare x y)
      | _, _ => Raise TypeError
      end
  end.

(** [a < b] *)
Definition py_lt (a b : value) : outcome bool :=
  c ← py_compare a b;
  Ok (match c with Some Lt => true | _ => false end).

(** [a > b] *)
Definition py_gt (a b : value) : outcome bool :=
  c ← py_compare a b;
  Ok (match c with Some Gt => true | _ => false end).

(** [a == b]: never raises; a string never equals a number. *)
Definition py_eq (a b : value) : bool :=
  match a, b with
  | VStr x, VStr y => String.eqb x y
  | _, _ =>
      match as_num a, as_num b with
      | Some x, Some y =>
          match num_compare x y with Some Eq => true | _ => false end
      | _, _ => false
      end
  end.

(** [a != b] *)
Definition py_ne (a b : value) : bool := negb (py_eq a b).

(** The conversion of an operand of mixed arithmetic to [float]. *)
Definition to_float (v : value) : outcome spec_float :=
  match v with
  | VInt z =>
      let f := F64.of_Z z in
      if F64.is_finite f then Ok f else Raise OverflowError
  | VFloat f => Ok f
  | VStr _ => Raise TypeError
  end.

Definition float_op (op : spec_float -> spec_float -> spec_float)
    (a b : value) : outcome value :=
  x ← to_float a; y ← to_float b; Ok (VFloat (op x y)).

(** [a + b] *)
Definition py_add (a b : value) : outcome value :=
  match a, b with
  | VInt x, VInt y => Ok (VInt (x + y))
  | VStr x, VStr y => Ok (VStr (x +:+ y))
  | VStr _, _ | _, VStr _ => Raise TypeError
  | _, _ => float_op F64.add a b
  end.

(** [a - b] *)
Definition py_sub (a b : value) : outcome value :=
  match a, b with
  | VInt x, VInt y => Ok (VInt (x - y))
  | VStr _, _ | _, VStr _ => Raise TypeError
  | _, _ => float_op F64.sub a b
  end.

(** [n * s] for a string [s]: [s] repeated, empty for [n <= 0]. *)
Definition repeat_str (n : Z) (s : string) : string :=
  Z.iter n (fun r => s +:+ r) EmptyString.

(** [a * b] *)
Definition py_mul (a b : value) : outcome value :=
  match a, b with
  | VInt x, VInt y => Ok (VInt (x * y))
  | VInt n, VStr s | VStr s, VInt n => Ok (VStr (repeat_str n s))
  | VStr _, _ | _, VStr _ => Raise TypeError
  | _, _ => float_op F64.mul a b
  end.

(** [a / b]: true division.  Between two integers the quotient is rounded
    once, and a quotient beyond the doubles is an [OverflowError]. *)
Definition py_truediv (a b : value) : outcome value :=
  match a, b with
  | VInt x, VInt y =>
      if y =? 0 then Raise ZeroDivisionError
      else
        let q := F64.of_ratio (xorb (x <? 0) (y <? 0)) (Z.abs x) (Z.to_pos (Z.abs y)) in
        if F64.is_finite q then Ok (VFloat q) else Raise OverflowError
  | _, _ =>
      x ← to_float a; y ← to_float b;
      if F64.is_zero y then Raise ZeroDivisionError else Ok (VFloat (F64.div x y))
  end.

(** [int(f)] of a [float]. *)
Definition int_of_float (f : spec_float) : outcome Z :=
  match F64.trunc f with
  | Some z => Ok z
  | None => Raise (match f with S754_nan => ValueError | _ => OverflowError end)
  end.

(** [int(v)] *)
Definition py_int (v : value) : outcome Z :=
  match v with
  | VInt z => Ok z
  | VFloat f => int_of_float f
  | VStr s => int_of_str s
  end.

(** The integer that ["%d" % v] prints. *)
Definition fmt_d (v : value) : outcome Z :=
  match v with
  | VInt z => Ok z
  | VFloat f => int_of_float f
  | VStr _ => Raise TypeError
  end.

(** The outcome is not a [ZeroDivisionError]. *)
Definition no_zde {A} (o : outcome A) : Prop := o <> Raise ZeroDivisionError.

(** [d[k]] on a dictionary. *)
Definition getitem {A} (d : gmap string A) (k : string) : outcome A :=
  match d !! k with
  | Some v => Ok v
  | None => Raise KeyError
  end.

End Py.

(* ===================================================================== *)
(** ** Regular expressions, as far as the two P1 patterns need them *)
(* ===================================================================== *)

Module Re.

(** A pattern is a sequence of items.  [Plus] is a greedy [c+], [LazyStar]
    a reluctant [c*?], [Open]/[Close] delimit a named group and [Eos] is
    [$] without MULTILINE. *)
Inductive item :=
| Lit (c : ascii)
| Plus (cls : ascii -> bool)
| LazyStar (cls : ascii -> bool)
| Open (name : string)
| Close (name : string)
| Eos.

(** The subject as it was left when a group was opened or closed. *)
Record mark := { mark_name : string; mark_open : bool; mark_rest : string }.

(** Where [$] matches: at the end, and before a line feed that ends the
    subject. *)
Definition at_end (s : string) : bool :=
  match s with
  | EmptyString => true
  | String c EmptyString => Ascii.eqb c "010"
  | _ => false
  end.

(** A backtracking match of the whole pattern at the front of [s]. *)
Fixpoint exec (p : list item) (s : string) (marks : list mark) {struct p}
    : option (list mark) :=
  match p with
  | [] => Some marks
  | Lit c :: p' =>
      match s with
      | String a s' => if Ascii.eqb a c then exec p' s' marks else None
      | EmptyString => None
      end
  | Plus cls :: p' =>
      (fix more (s : string) : option (list mark) :=
         match s with
         | String a s' =>
             if cls a then
               match more s' with
               | Some r => Some r
               | None => exec p' s' marks
               end
             else None
         | EmptyString => None
         end) s
  | LazyStar cls :: p' =>
      (fix less (s : string) : option (list mark) :=
         match exec p' s marks with
         | Some r => Some r
         | None =>
             match s with
             | String a s' => if cls a then less s' else None
             | EmptyString => None
             end
         end) s
  | Open n :: p' => exec p' s ({| mark_name := n; mark_open := true; mark_rest := s |} :: marks)
  | Close n :: p' => exec p' s ({| mark_name := n; mark_open := false; mark_rest := s |} :: marks)
  | Eos :: p' => if at_end s then exec p' s marks else None
  end.

(** [pattern.search(s)]: the match at the leftmost position that has one. *)
Fixpoint search (p : list item) (s : string) : option (list mark) :=
  match exec p s [] with
  | Some r => Some r
  | None =>
      match s with
      | String _ s' => search p s'
      | EmptyString => None
      end
  end.

Definition find_mark (n : string) (o : bool) (marks : list mark) : string :=
  match List.find (fun m => String.eqb (mark_name m) n && Bool.eqb (mark_open m) o) marks with
  | Some m => mark_rest m
  | None => EmptyString
  end.

Fixpoint take (n : nat) (s : string) : string :=
  match n, s with
  | S n', String c s' => String c (take n' s')
  | _, _ => EmptyString
  end.

(** [match.group(name)] *)
Definition group (n : string) (marks : list mark) : string :=
  let o := find_mark n true marks in
  let c := find_mark n false marks in
  take (String.length o - String.length c) o.

(** The groups a pattern opens and closes. *)
Fixpoint tags (p : list item) : list (string * bool) :=
  match p with
  | [] => []
  | Open n :: p' => (n, true) :: tags p'
  | Close n :: p' => (n, false) :: tags p'
  | _ :: p' => tags p'
  end.

Definition tag_of (m : mark) : string * bool := (mark_name m, mark_open m).

Definition digit : ascii -> bool := Py.is_digit.
Definition not_lparen (c : ascii) : bool := negb (Ascii.eqb c "(").

(** [\d+\-\d+:\d+\.\d+\.\d+] *)
Definition obis_code : list item :=
  [Plus digit; Lit "-"; Plus digit; Lit ":"; Plus digit; Lit "."; Plus digit;
   Lit "."; Plus digit].

(** [(?P<name>[^(]*?)] between parentheses *)
Definition paren_group (name : string) : list item :=
  [Lit "("; Open name; LazyStar not_lparen; Close name; Lit ")"].

End Re.

(* ===================================================================== *)
(** ** P1listener.py: the telegram decoder *)
(* ===================================================================== *)

Module P1listener.
Import Py.

(** [P1_ONE_VALUE_RGX]; [\d] is taken over the ASCII digits. *)
Definition P1_ONE_VALUE_RGX : list Re.item :=
  [Re.Open "key"] ++ Re.obis_code ++ [Re.Close "key"] ++
  Re.paren_group "value" ++ [Re.Eos].

(** [P1_TWO_VALUES_RGX] *)
Definition P1_TWO_VALUES_RGX : list Re.item :=
  [Re.Open "key"] ++ Re.obis_code ++ [Re.Close "key"] ++
  Re.paren_group "value1" ++ Re.paren_group "value2" ++ [Re.Eos].

(** [SlimmeMeter.parse_p1_value] *)
Definition parse_p1_value (value : string) : outcome Py.value :=
  if contains "*m3" value then
    f ← float_of_str (split_head "*" value);
    z ← int_of_float (F64.mul (F64.of_Z 1000) f);
    Ok (VInt z)
  else if contains "*kW" value then
    f ← float_of_str (split_head "*" value);
    z ← int_of_float (F64.mul (F64.of_Z 1000) f);
    Ok (VInt z)
  else if contains "*V" value then
    f ← float_of_str (split_head "*" value);
    Ok (VFloat f)
  else if contains "*A" value then
    z ← int_of_str (split_head "*" value);
    Ok (VInt z)
  else Ok (VStr value).

(** The dictionary [data] of [read_datagram], with its two sub-dictionaries. *)
Record datagram := {
  meta : gmap string value;
  telegram : gmap string value
}.

Definition empty_datagram : datagram := {| meta := ∅; telegram := ∅ |}.

(** The local variables of [read_datagram] that live across iterations. *)
Record state := {
  data : datagram;
  first_line_read : bool;
  datagram_counter : Z
}.

(** The state on entry of the loop: no frame open. *)
Definition Idle : state :=
  {| data := empty_datagram; first_line_read := false; datagram_counter := 0 |}.

(** The records that the loop and [parse_p1_value] hand to [logging]:
    one warning, the others at level debug. *)
Inductive log :=
| First_line_found
| Unexpected_line (line : string)
| End_line_found
| Original_value (value : string)
| Converted_to (value : Py.value)
| Found_1_value_match (key : string) (value : Py.value)
| Found_2_values_match (key : string) (value1 value2 : Py.value).



(** The two records of a call of [parse_p1_value] that returns. *)
Definition parse_p1_value_log (value : string) (converted : Py.value) : list log :=
  [Original_value value; Converted_to converted].

(** What one iteration leaves behind: the next state, the datagram handed
    to [sock.sendto] if any, and the records logged, in order. *)
Record stepped := {
  next : state;
  sent : option datagram;
  logged : list log
}.

(** An iteration that changes, sends and logs nothing. *)
Definition quiet (st : state) : stepped :=
  {| next := st; sent := None; logged := [] |}.

Definition set_telegram (st : state) (t : gmap string value) : state :=
  {| data := {| meta := meta (data st); telegram := t |};
     first_line_read := first_line_read st;
     datagram_counter := datagram_counter st |}.

(** One iteration of the [while True] loop of [read_datagram] on the line
    that [read_line] returned; [now] is what [time.time()] returns in this
    iteration. *)
Definition step (now : spec_float) (line : string) (st : state) : outcome stepped :=
  let d := data st in
  if negb (first_line_read st) && startswith "/" line then
    let c := datagram_counter st + 1 in
    Ok {| next :=
            {| data := {| meta := <["frame-number" := VInt c]>
                                    (<["frame-start-time" := VFloat now]> (meta d));
                          telegram := <["header" := VStr line]> (telegram d) |};
               first_line_read := true;
               datagram_counter := c |};
          sent := None;
          logged := [First_line_found] |}
  else if negb (first_line_read st) then
    Ok {| next := st; sent := None; logged := [Unexpected_line line] |}
  else if startswith "!" line && (len line =? 5) then
    let t := <["checksum" := VStr (tail line)]> (telegram d) in
    let m := <["frame-end-time" := VFloat now]> (meta d) in
    e ← getitem m "frame-end-time";
    s ← getitem m "frame-start-time";
    diff ← py_sub e s;
    ms ← py_mul (VInt 1000) diff;
    duration ← py_int ms;
    Ok {| next := {| data := empty_datagram;
                     first_line_read := false;
                     datagram_counter := datagram_counter st |};
          sent := Some {| meta := <["frame-time-duration" := VInt duration]> m;
                          telegram := t |};
          logged := [End_line_found] |}
  else
    match Re.search P1_ONE_VALUE_RGX line with
    | Some p1_one_value_match =>
        let key := Re.group "key" p1_one_value_match in
        value ← parse_p1_value (Re.group "value" p1_one_value_match);
        Ok {| next := set_telegram st (<[key := value]> (telegram d));
              sent := None;
              logged := parse_p1_value_log (Re.group "value" p1_one_value_match) value ++
                        [Found_1_value_match key value] |}
    | None =>
        match Re.search P1_TWO_VALUES_RGX line with
        | Some p1_two_values_match =>
            let key := Re.group "key" p1_two_values_match in
            value1 ← parse_p1_value (Re.group "value1" p1_two_values_match);
            value2 ← parse_p1_value (Re.group "value2" p1_two_values_match);
            Ok {| next := set_telegram st
                            (<[key +:+ ".B" := value2]>
                               (<[key +:+ ".A" := value1]> (telegram d)));
                  sent := None;
                  logged :=
                    parse_p1_value_log (Re.group "value1" p1_two_values_match) value1 ++
                    parse_p1_value_log (Re.group "value2" p1_two_values_match) value2 ++
                    [Found_2_values_match key value1 value2] |}
        | None => Ok (quiet st)
        end
    end.

(** The loop over the lines of the port, each with its clock reading:
    the datagrams sent, oldest first, and the state reached. *)
Fixpoint run (lines : list (spec_float * string)) (st : state)
    : outcome (list datagram * state) :=
  match lines with
  | [] => Ok ([], st)
  | (now, line) :: rest =>
      r ← step now line st;
      '(out, st') ← run rest (next r);
      Ok (match sent r with Some d => d :: out | None => out end, st')
  end.

End P1listener.

(* ===================================================================== *)
(** ** P1reader.py: the aggregation engine *)
(* ===================================================================== *)

Module P1reader.
Import Py.

(** The address [recvfrom] reports: host and port. *)
Definition sender : Type := string * Z.

(** One row of [self.measurements]. *)
Record measurement := {
  m_time : Z;
  m_in_t1 : value; m_in_t2 : value; m_power_in : value;
  m_out_t1 : value; m_out_t2 : value; m_power_out : value
}.

(** One entry of [self.csvdata], with the names [print_csv] gives its parts. *)
Record csv_entry := {
  epoch_time : Z;
  power_watt : value;
  csvverbruiklist : list value;
  power_watt_levering : value;
  csvleveringlist : list value
}.

(** The attributes of a [SlimmeMeter] object (the socket apart). *)
Record SlimmeMeter := {
  measurements : list measurement;
  lastten : list (Z * value * value);
  csvdata : list csv_entry;
  csvverbruik : list value;
  csvlevering : list value;
  csvfm : Z;
  who : option sender;
  telegram_framenumber : value
}.

(** [SlimmeMeter.__init__] *)
Definition init : SlimmeMeter :=
  {| measurements := []; lastten := []; csvdata := []; csvverbruik := [];
     csvlevering := []; csvfm := 0; who := None; telegram_framenumber := VInt 0 |}.

(** The line of the interval report that [print_csv] writes for one entry:
    the seconds handed to [time.localtime], the two totals printed with
    [%s] and the integers printed with [%4d]. *)
Record csv_row := {
  row_time : Z;
  row_total_in : value; row_minI : Z; row_avgI : Z; row_maxI : Z;
  row_total_out : value; row_minO : Z; row_avgO : Z; row_maxO : Z
}.

(** What a method does to the outside: log records, and lines written to
    the interval file ([csv_file]) and to the day file ([csv_file2]). *)
Inductive effect :=
| Error_decoding_json
| Info_sender_restarted (w : sender)
| Warning_missed (delta : value)
| Warning_took_too_much_time (ms : value)
| Warning_not_enough_data (records : Z)
| Write_csv (row : csv_row)
| Write_csv2 (row : csv_row).

(** A method call: the object as it is left, the effects in order, and the
    value returned or the exception raised. *)
Record ran (A : Type) := {
  self : SlimmeMeter;
  effects : list effect;
  result : outcome A
}.
Arguments self {A} r.
Arguments effects {A} r.
Arguments result {A} r.

Definition M (A : Type) : Type := SlimmeMeter -> ran A.

Definition M_ret {A} (a : A) : M A :=
  fun s => {| self := s; effects := []; result := Ok a |}.

Definition M_bind {A B} (k : A -> M B) (c : M A) : M B :=
  fun s =>
    match c s with
    | {| self := s1; effects := e1; result := Ok a |} =>
        match k a s1 with
        | {| self := s2; effects := e2; result := r |} =>
            {| self := s2; effects := e1 ++ e2; result := r |}
        end
    | {| self := s1; effects := e1; result := Raise e |} =>
        {| self := s1; effects := e1; result := Raise e |}
    end.

#[global] Instance M_mret : MRet M := @M_ret.
#[global] Instance M_mbind : MBind M := @M_bind.

Definition lift {A} (o : outcome A) : M A :=
  fun s => {| self := s; effects := []; result := o |}.

Definition raise {A} (e : exn) : M A := lift (Raise e).

Definition get : M SlimmeMeter :=
  fun s => {| self := s; effects := []; result := Ok s |}.

Definition modify (f : SlimmeMeter -> SlimmeMeter) : M unit :=
  fun s => {| self := f s; effects := []; result := Ok tt |}.

Definition emit (e : effect) : M unit :=
  fun s => {| self := s; effects := [e]; result := Ok tt |}.

Definition when (b : bool) (c : M unit) : M unit :=
  if b then c else M_ret tt.

(** Attribute assignments. *)
Definition set_measurements v s :=
  {| measurements := v; lastten := lastten s; csvdata := csvdata s;
     csvverbruik := csvverbruik s; csvlevering := csvlevering s; csvfm := csvfm s;
     who := who s; telegram_framenumber := telegram_framenumber s |}.
Definition set_lastten v s :=
  {| measurements := measurements s; lastten := v; csvdata := csvdata s;
     csvverbruik := csvverbruik s; csvlevering := csvlevering s; csvfm := csvfm s;
     who := who s; telegram_framenumber := telegram_framenumber s |}.
Definition set_csvdata v s :=
  {| measurements := measurements s; lastten := lastten s; csvdata := v;
     csvverbruik := csvverbruik s; csvlevering := csvlevering s; csvfm := csvfm s;
     who := who s; telegram_framenumber := telegram_framenumber s |}.
Definition set_csvverbruik v s :=
  {| measurements := measurements s; lastten := lastten s; csvdata := csvdata s;
     csvverbruik := v; csvlevering := csvlevering s; csvfm := csvfm s;
     who := who s; telegram_framenumber := telegram_framenumber s |}.
Definition set_csvlevering v s :=
  {| measurements := measurements s; lastten := lastten s; csvdata := csvdata s;
     csvverbruik := csvverbruik s; csvlevering := v; csvfm := csvfm s;
     who := who s; telegram_framenumber := telegram_framenumber s |}.
Definition set_csvfm v s :=
  {| measurements := measurements s; lastten := lastten s; csvdata := csvdata s;
     csvverbruik := csvverbruik s; csvlevering := csvlevering s; csvfm := v;
     who := who s; telegram_framenumber := telegram_framenumber s |}.
Definition set_who v s :=
  {| measurements := measurements s; lastten := lastten s; csvdata := csvdata s;
     csvverbruik := csvverbruik s; csvlevering := csvlevering s; csvfm := csvfm s;
     who := v; telegram_framenumber := telegram_framenumber s |}.
Definition set_telegram_framenumber v s :=
  {| measurements := measurements s; lastten := lastten s; csvdata := csvdata s;
     csvverbruik := csvverbruik s; csvlevering := csvlevering s; csvfm := csvfm s;
     who := who s; telegram_framenumber := v |}.

(** The names bound in the module when [main] runs, and the local names of
    [read_datagram] bound when its [except] clause runs. *)
Definition module_globals : list string :=
  ["argparse"; "configparser"; "datetime"; "json"; "jinja2"; "logging"; "os";
   "re"; "socket"; "struct"; "sys"; "time"; "signal"; "yaml"; "Path";
   "__author__"; "__license__"; "__email__"; "__version__";
   "get_arguments"; "power_meter"; "do_exit";
   "P1MESSAGE_RGX"; "REALVALUE_RGX"; "P1_ONE_VALUE_RGX"; "P1_TWO_VALUES_RGX";
   "P1_KEYS"; "P1_KEYS_TO_FRIENDLY_NAME"; "CONFIG"; "SlimmeMeter";
   "write_to_csv_file"; "get_config_value"; "main"].

Definition read_datagram_locals : list string :=
  ["self"; "p1_line"; "data"; "buf"; "who"].

(** Whether a name read in the [except] clause of [read_datagram] is bound:
    Python looks among the locals, then among the globals of the module
    (and then among the built-ins, which are left out here: none of the
    names asked for below is one). *)
Definition bound (name : string) : bool :=
  existsb (String.eqb name) (read_datagram_locals ++ module_globals).

Section Configured.

(** The global [CONFIG], as [yaml.load] left it: category, key, value. *)
Variable CONFIG : gmap string (gmap string value).

(** [get_config_value(category, key, config_type, default)] *)
Definition get_config_value {A} (category key : string)
    (config_type : value -> outcome A) (default : A) : outcome A :=
  match CONFIG !! category with
  | None => Ok default
  | Some section =>
      match section !! key with
      | None => Ok default
      | Some v => config_type v
      end
  end.

(** Lines 383-393: the frame-number bookkeeping. *)
Definition track_sender (meta_info : gmap string value) (from : sender) : M unit :=
  s ← get;
  when (bool_decide (who s ≠ Some from))
    (emit (Info_sender_restarted from);;
     modify (set_who (Some from));;
     n ← lift (getitem meta_info "frame-number");
     modify (set_telegram_framenumber n));;
  n ← lift (getitem meta_info "frame-number");
  s ← get;
  when (py_ne n (telegram_framenumber s))
    (n' ← lift (getitem meta_info "frame-number");
     delta ← lift (py_sub (telegram_framenumber s) n');
     emit (Warning_missed delta);;
     n'' ← lift (getitem meta_info "frame-number");
     modify (set_telegram_framenumber n''));;
  s ← get;
  n1 ← lift (py_add (telegram_framenumber s) (VInt 1));
  modify (set_telegram_framenumber n1).

(** Lines 408-411: the weekly sample. *)
Definition weekly_sample (telegram_time : Z) (telegram : gmap string value) : M unit :=
  weekly_log_measurement_period ←
    lift (get_config_value "weekly_log" "measurement_period" py_int 30);
  (if weekly_log_measurement_period =? 0 then raise ZeroDivisionError else M_ret tt);;
  when (telegram_time mod weekly_log_measurement_period =? 0)
    (a ← lift (getitem telegram "1-0:1.8.1");
     b ← lift (getitem telegram "1-0:1.8.2");
     c ← lift (getitem telegram "1-0:1.7.0");
     d ← lift (getitem telegram "1-0:2.8.1");
     e ← lift (getitem telegram "1-0:2.8.2");
     f ← lift (getitem telegram "1-0:2.7.0");
     modify (fun s => set_measurements
       (measurements s ++
          [{| m_time := telegram_time; m_in_t1 := a; m_in_t2 := b; m_power_in := c;
              m_out_t1 := d; m_out_t2 := e; m_power_out := f |}]) s)).

(** Lines 413-416: the buffer of the last samples. *)
Definition rolling_buffer (telegram_time : Z) (telegram : gmap string value) : M unit :=
  s ← get;
  if 120 <? Z.of_nat (length (lastten s)) then
    p_in ← lift (getitem telegram "1-0:1.7.0");
    p_out ← lift (getitem telegram "1-0:2.7.0");
    modify (set_lastten (List.tl (lastten s) ++ [(telegram_time, p_in, p_out)]))
  else
    p_in ← lift (getitem telegram "1-0:1.7.0");
    p_out ← lift (getitem telegram "1-0:2.7.0");
    modify (fun s => set_lastten (lastten s ++ [(telegram_time, p_in, p_out)]) s).

(** Lines 418-426: the interval accumulation and its close. *)
Definition periodic_batch (telegram_time : Z) (telegram : gmap string value) : M unit :=
  p_in ← lift (getitem telegram "1-0:1.7.0");
  modify (fun s => set_csvverbruik (csvverbruik s ++ [p_in]) s);;
  p_out ← lift (getitem telegram "1-0:2.7.0");
  modify (fun s => set_csvlevering (csvlevering s ++ [p_out]) s);;
  s ← get;
  when (((telegram_time mod 300 <? 3) && (10 <? telegram_time - csvfm s))
        || (300 <? telegram_time - csvfm s))
    (a ← lift (getitem telegram "1-0:1.8.1");
     b ← lift (getitem telegram "1-0:1.8.2");
     totalO ← lift (py_add a b);
     c ← lift (getitem telegram "1-0:2.8.1");
     d ← lift (getitem telegram "1-0:2.8.2");
     totalI ← lift (py_add c d);
     modify (fun s => set_csvdata
       (csvdata s ++
          [{| epoch_time := telegram_time; power_watt := totalO;
              csvverbruiklist := csvverbruik s; power_watt_levering := totalI;
              csvleveringlist := csvlevering s |}]) s);;
     modify (set_csvfm telegram_time);;
     modify (set_csvverbruik []);;
     modify (set_csvlevering [])).

(** [SlimmeMeter.read_datagram].  [parsed] is what [json.loads(buf)] gives
    for the datagram received, [None] when it raises; [from] is the address
    [recvfrom] reports.  The result is the returned telegram, or [None]
    for Python's [None]. *)
Definition read_datagram (parsed : option (gmap string (gmap string value)))
    (from : sender) : M (option (gmap string value)) :=
  match parsed with
  | None =>
      if bound "now" then emit Error_decoding_json;; M_ret None
      else raise NameError
  | Some data =>
      meta_info ← lift (getitem data "meta");
      telegram ← lift (getitem data "telegram");
      track_sender meta_info from;;
      start ← lift (getitem meta_info "frame-start-time");
      telegram_time ← lift (py_int start);
      duration ← lift (getitem meta_info "frame-time-duration");
      slow ← lift (py_gt duration (VInt 500));
      when slow
        (duration' ← lift (getitem meta_info "frame-time-duration");
         emit (Warning_took_too_much_time duration'));;
      let telegram :=
        match telegram !! "1-0:2.7.0" with
        | None => <["1-0:2.7.0" := VInt 0]> telegram
        | Some _ => telegram
        end in
      weekly_sample telegram_time telegram;;
      rolling_buffer telegram_time telegram;;
      periodic_batch telegram_time telegram;;
      M_ret (Some telegram)
  end.

(** The calls of [read_datagram] that the loop of [main] makes, one for
    each datagram received.  [main] handles [KeyboardInterrupt] only, so
    any exception of a call leaves the loop. *)
Fixpoint read_datagrams
    (inbox : list (option (gmap string (gmap string value)) * sender))
    : M (list (option (gmap string value))) :=
  match inbox with
  | [] => M_ret []
  | (parsed, from) :: rest =>
      datagram ← read_datagram parsed from;
      datagrams ← read_datagrams rest;
      M_ret (datagram :: datagrams)
  end.

End Configured.

(** A row of [lastten]: time, power in, power out. *)
Definition sample : Type := Z * value * value.

(** The body of the loop of [sorted_rows], on its three variables. *)
Definition sorted_rows_step (acc : list (list sample) * list sample * Z) (row : sample)
    : list (list sample) * list sample * Z :=
  let '(sorted_row, temp_row, first_timestamp) := acc in
  if first_timestamp / 10 =? row.1.1 / 10 then
    (sorted_row, temp_row ++ [row], first_timestamp)
  else
    (sorted_row ++ [temp_row], [row], row.1.1).

(** [SlimmeMeter.sorted_rows]; the result is [None] for Python's [None]. *)
Definition sorted_rows (rows : list sample) : option (list (list sample)) :=
  match rows with
  | [] => None
  | row0 :: _ => Some (fold_left sorted_rows_step rows ([], [], row0.1.1)).1.1
  end.

(** The four running variables of one statistics loop of [print_csv]. *)
Record stats := { N : Z; vmin : value; vmax : value; vsum : value }.

(** [NI = 0; minI = 999999; maxI = 0; sumI = 0] *)
Definition stats0 : stats :=
  {| N := 0; vmin := VInt 999999; vmax := VInt 0; vsum := VInt 0 |}.

(** The body of [for e in csvverbruiklist]. *)
Definition stats_step (a : stats) (e : value) : outcome stats :=
  gt ← py_gt e (vmax a);
  let mx := if (gt : bool) then e else vmax a in
  lt ← py_lt e (vmin a);
  let mn := if (lt : bool) then e else vmin a in
  sm ← py_add (vsum a) e;
  Ok {| N := N a + 1; vmin := mn; vmax := mx; vsum := sm |}.

Fixpoint stats_loop (l : list value) (a : stats) : outcome stats :=
  match l with
  | [] => Ok a
  | e :: l' => a' ← stats_step a e; stats_loop l' a'
  end.

(** [avgI = sumI / NI] *)
Definition average (a : stats) : outcome value :=
  py_truediv (vsum a) (VInt (N a)).

(** The seconds [time.localtime] works with: a float is rounded towards
    minus infinity.  (The range of the platform's [time_t] is not
    modelled.) *)
Definition localtime (secs : value) : outcome Z :=
  match secs with
  | VInt z => Ok z
  | VFloat f =>
      match F64.floor f with
      | Some z => Ok z
      | None => Raise (match f with S754_nan => ValueError | _ => OverflowError end)
      end
  | VStr _ => Raise TypeError
  end.

(** The body of the loop of [print_csv] for one entry, up to the line. *)
Definition interval_row (entry : csv_entry) : outcome csv_row :=
  sI ← stats_loop (csvverbruiklist entry) stats0;
  avgI ← average sI;
  sO ← stats_loop (csvleveringlist entry) stats0;
  avgO ← average sO;
  q ← py_truediv (VInt (epoch_time entry)) (VInt 300);
  x ← py_mul q (VInt 300);
  secs ← localtime x;
  minI' ← fmt_d (vmin sI); avgI' ← fmt_d avgI; maxI' ← fmt_d (vmax sI);
  minO' ← fmt_d (vmin sO); avgO' ← fmt_d avgO; maxO' ← fmt_d (vmax sO);
  Ok {| row_time := secs;
        row_total_in := power_watt entry;
        row_minI := minI'; row_avgI := avgI'; row_maxI := maxI';
        row_total_out := power_watt_levering entry;
        row_minO := minO'; row_avgO := avgO'; row_maxO := maxO' |}.

Fixpoint write_rows (entries : list csv_entry) : M unit :=
  match entries with
  | [] => M_ret tt
  | entry :: rest =>
      row ← lift (interval_row entry);
      emit (Write_csv row);;
      emit (Write_csv2 row);;
      write_rows rest
  end.

(** [SlimmeMeter.print_csv] *)
Definition print_csv : M unit :=
  s ← get;
  if Z.of_nat (length (csvdata s)) <? 3 then
    emit (Warning_not_enough_data (Z.of_nat (length (csvdata s))))
  else
    write_rows (csvdata s);;
    modify (set_csvdata []).

(** The rows written to the interval file, in order. *)
Definition interval_rows (es : list effect) : list csv_row :=
  omap (fun e => match e with Write_csv row => Some row | _ => None end) es.

(** The seconds [print_csv] hands to [time.localtime] for an entry. *)
Definition interval_row_time (entry : csv_entry) : outcome Z :=
  row ← interval_row entry; Ok (row_time row).

(** *** Properties of method calls *)

(** [I] survives the call, however it ends. *)
Definition stable {A} (I : SlimmeMeter -> Prop) (c : M A) : Prop :=
  forall s, I s -> I (self (c s)).

(** Every effect of the call satisfies [P]. *)
Definition emits {A} (P : effect -> Prop) (c : M A) : Prop :=
  forall s, Forall P (effects (c s)).

(** Every value the call returns satisfies [Q]. *)
Definition returns {A} (Q : A -> Prop) (c : M A) : Prop :=
  forall s a, result (c s) = Ok a -> Q a.

(** An entry of [csvdata] that carries at least one sample of each kind. *)
Definition nonempty_batch (e : csv_entry) : Prop :=
  csvverbruiklist e <> [] /\ csvleveringlist e <> [].

(** [s] has the entries of [s0] and, after them, entries that all carry
    samples. *)
Definition appended (s0 s : SlimmeMeter) : Prop :=
  exists new, csvdata s = csvdata s0 ++ new /\ Forall nonempty_batch new.

(** The effect is not the warning about missed telegrams. *)
Definition no_gap (e : effect) : Prop := forall delta, e <> Warning_missed delta.

(** [lastten] holds at most 121 rows. *)
Definition bounded_buffer (s : SlimmeMeter) : Prop := (length (lastten s) <= 121)%nat.

(** A call whose first effect is [e]. *)
Definition after {B} (e : effect) (r : ran B) : ran B :=
  {| self := self r; effects := e :: effects r; result := result r |}.

End P1reader.

(* ===================================================================== *)
(** ** Telegrams and datagrams used in the statements below *)
(* ===================================================================== *)

Module Fixtures.
Import Py.

(** The [meta] part of a datagram: frame [number], started at the whole
    second [t] and collected in 100 ms. *)
Definition meta_of (t number : Z) : gmap string value :=
  <["frame-start-time" := VFloat (F64.of_Z t)]>
  (<["frame-end-time" := VFloat (F64.of_Z t)]>
  (<["frame-time-duration" := VInt 100]>
  {["frame-number" := VInt number]})).

(** The four energy registers, at fixed readings. *)
Definition registers : gmap string value :=
  <["1-0:1.8.1" := VInt 1651]>
  (<["1-0:1.8.2" := VInt 1134]>
  (<["1-0:2.8.1" := VInt 8673]>
  {["1-0:2.8.2" := VInt 5385]})).

(** A telegram with both powers. *)
Definition telegram_of (power_in power_out : Z) : gmap string value :=
  <["1-0:1.7.0" := VInt power_in]> (<["1-0:2.7.0" := VInt power_out]> registers).

(** A datagram as the listener sends it. *)
Definition payload (t number power_in power_out : Z)
    : gmap string (gmap string value) :=
  <["meta" := meta_of t number]> {["telegram" := telegram_of power_in power_out]}.

(** The telegram of a meter that does not report power out. *)
Definition import_only_telegram (power_in : Z) : gmap string value :=
  <["1-0:1.7.0" := VInt power_in]> registers.

Definition import_only (t number power_in : Z)
    : gmap string (gmap string value) :=
  <["meta" := meta_of t number]> {["telegram" := import_only_telegram power_in]}.


Definition meter : P1reader.sender := ("192.168.1.10", 50000).
Definition other_meter : P1reader.sender := ("192.168.1.11", 50000).

(** Sample [i] of a stream with one telegram a second: taken at second [i],
    frame number [i], [i] watts in, nothing out. *)
Definition nth_sample (i : nat)
    : option (gmap string (gmap string value)) * P1reader.sender :=
  (Some (payload (Z.of_nat i) (Z.of_nat i) (Z.of_nat i) 0), meter).

(** The row of [lastten] that sample [i] leaves. *)
Definition nth_row (i : nat) : P1reader.sample :=
  (Z.of_nat i, VInt (Z.of_nat i), VInt 0).


(** Telegrams one second after three consecutive 5-minute boundaries. *)
Definition late_inbox
    : list (option (gmap string (gmap string value)) * P1reader.sender) :=
  [(Some (payload 301 1 10 0), meter); (Some (payload 601 2 20 0), meter);
   (Some (payload 901 3 30 0), meter)].

(** The window that the sample at 300 seconds closes in the periodic-batch
    example. *)
Definition closed_window : P1reader.csv_entry :=
  {| P1reader.epoch_time := 300;
     P1reader.power_watt := VInt 2785;
     P1reader.csvverbruiklist := [VInt 10; VInt 20; VInt 10; VInt 20; VInt 10; VInt 20];
     P1reader.power_watt_levering := VInt 14058;
     P1reader.csvleveringlist := [VInt 0; VInt 0; VInt 0; VInt 0; VInt 0; VInt 0] |}.

Definition twelve_and_a_half : spec_float := S754_finite false 7036874417766400 (-49).

(** The four lines of the end-to-end example, with the clock readings of
    the four iterations. *)
Definition telegram_lines (t0 t1 t2 t3 : spec_float) : list (spec_float * string) :=
  [(t0, "/ISK5\2M550T-1013"); (t1, "1-0:1.7.0(00.500*kW)");
   (t2, "1-0:2.7.0(00.100*kW)"); (t3, "!1234")].

(** A clock reading: 8 June 2021, 11:00:46 UTC, and half a second later. *)
Definition clock : spec_float := F64.of_Z 1623150046.
Definition clock_later : spec_float := F64.of_ratio false 16231500465 10.


(** The decoder inside the frame that [interrupted_lines] opens, after the
    first field. *)
Definition inside_frame : P1listener.state :=
  {| P1listener.data :=
       {| P1listener.meta := <["frame-number" := VInt 1]> {["frame-start-time" := VFloat clock]};
          P1listener.telegram :=
            <["1-0:1.7.0" := VInt 500]> {["header" := VStr "/ISK5\2M550T-1013"]} |};
     P1listener.first_line_read := true;
     P1listener.datagram_counter := 1 |}.

(** 25 rows of [lastten], one a second from second 0. *)
Definition rows25 : list P1reader.sample := map nth_row (seq 0 25).

End Fixtures.

(* ===================================================================== *)
(** ** P1reader.py: the exporters and the schedule of [main] *)
(* ===================================================================== *)

Module Exporters.
Import Py P1reader.

(** [P1_KEYS] *)
Definition P1_KEYS : list string :=
  ["1-3:0.2.8"; "0-0:1.0.0"; "0-0:96.1.1"; "1-0:1.8.1"; "1-0:1.8.2";
   "1-0:2.8.1"; "1-0:2.8.2"; "0-0:96.14.0"; "1-0:1.7.0"; "1-0:2.7.0";
   "0-0:96.7.21"; "0-0:96.7.9"; "1-0:99.97.0"; "1-0:32.32.0"; "1-0:52.32.0";
   "1-0:72.32.0"; "1-0:32.36.0"; "1-0:52.36.0"; "1-0:72.36.0"; "0-0:96.13.0";
   "1-0:32.7.0"; "1-0:52.7.0"; "1-0:72.7.0"; "1-0:31.7.0"; "1-0:51.7.0";
   "1-0:71.7.0"; "1-0:21.7.0"; "1-0:41.7.0"; "1-0:61.7.0"; "1-0:22.7.0";
   "1-0:42.7.0"; "1-0:62.7.0"; "0-1:24.1.0"; "0-1:96.1.0"; "0-1:24.2.1.A";
   "0-1:24.2.1.B"].

(** The items of the dictionary [P1_KEYS_TO_FRIENDLY_NAME], as written. *)
Definition friendly_names : list (string * string) :=
  [("1-3:0.2.8", "version"); ("0-0:1.0.0", "timestamp");
   ("0-0:96.1.1", "equipment id"); ("1-0:1.8.1", "elec. in, t1");
   ("1-0:1.8.2", "elec. in, t2"); ("1-0:2.8.1", "elec. out, t1");
   ("1-0:2.8.2", "elec. out, t2"); ("0-0:96.14.0", "tariff");
   ("1-0:1.7.0", "power in"); ("1-0:2.7.0", "power out");
   ("0-0:96.7.21", "# power failures"); ("0-0:96.7.9", "# long power failures");
   ("1-0:99.97.0", "failure timestamp - duration"); ("1-0:32.32.0", "voltage sags L1");
   ("1-0:52.32.0", "voltage sags L2"); ("1-0:72.32.0", "voltage sags L3");
   ("1-0:32.36.0", "voltage swells L1"); ("1-0:52.36.0", "voltage swells L2");
   ("1-0:72.36.0", "voltage swells L3"); ("0-0:96.13.0", "text message");
   ("1-0:32.7.0", "voltage L1"); ("1-0:52.7.0", "voltage L2");
   ("1-0:72.7.0", "voltage L3"); ("1-0:31.7.0", "current L1");
   ("1-0:51.7.0", "current L2"); ("1-0:71.7.0", "current L3");
   ("1-0:21.7.0", "power in L1"); ("1-0:41.7.0", "power in L2");
   ("1-0:61.7.0", "power in L3"); ("1-0:22.7.0", "power out L1");
   ("1-0:42.7.0", "power out L2"); ("1-0:62.7.0", "power out L3");
   ("0-1:24.1.0", "device type"); ("0-1:96.1.0", "equipment ID");
   ("0-1:24.2.1.A", "Gas meting tijd"); ("0-1:24.2.1.B", "Gas meting")].

(** [P1_KEYS_TO_FRIENDLY_NAME]: a key written twice would keep its last
    value, as in a Python dictionary display. *)
Definition P1_KEYS_TO_FRIENDLY_NAME : gmap string string :=
  fold_left (fun d kv => <[kv.1 := kv.2]> d) friendly_names ∅.

(** [sep.join(l)] *)
Fixpoint join (sep : string) (l : list string) : string :=
  match l with
  | [] => EmptyString
  | [x] => x
  | x :: l' => x +:+ sep +:+ join sep l'
  end.

(** One call of [fp.write] in [write_to_csv_file]: a piece of text, the
    time of a datagram (the seconds given to [time.localtime], before
    [strftime]) or the value of a field (before [str]); the last two are
    followed by the delimiter. *)
Inductive detail_write :=
| Write_text (s : string)
| Write_time (secs : Z)
| Write_cell (v : value).

(** A run of writes, and how it ended. *)
Definition writing : Type := list detail_write * outcome unit.

(** The writes of [c], and then those of [k] unless [c] raised. *)
Definition and_then (c k : writing) : writing :=
  match c with
  | (w, Ok _) => (w ++ k.1, k.2)
  | (w, Raise e) => (w, Raise e)
  end.

(** [for element in P1_KEYS: fp.write(P1_KEYS_TO_FRIENDLY_NAME[element] + delimeter)] *)
Fixpoint write_friendly_names (keys : list string) : writing :=
  match keys with
  | [] => ([], Ok tt)
  | element :: rest =>
      match getitem P1_KEYS_TO_FRIENDLY_NAME element with
      | Ok name => and_then ([Write_text (name +:+ ";")], Ok tt) (write_friendly_names rest)
      | Raise e => ([], Raise e)
      end
  end.

(** The two header lines, written when the file does not exist yet. *)
Definition write_header : writing :=
  and_then ([Write_text ("datum" +:+ ";");
             Write_text (join ";" P1_KEYS +:+ String "010" EmptyString);
             Write_text ("datum" +:+ ";")], Ok tt)
    (and_then (write_friendly_names P1_KEYS)
       ([Write_text (String "010" EmptyString)], Ok tt)).

(** The cell of a key: [''] unless the telegram has the key. *)
Definition cell (datagram : gmap string value) (element : string) : value :=
  match datagram !! element with
  | Some v => v
  | None => VStr EmptyString
  end.

(** The body of [for datagram_time, datagram in datagrams]; the datagram
    is what [read_datagram] returned, [None] for Python's [None], whose
    first membership test raises [TypeError]. *)
Definition write_datagram (datagram_time : value)
    (datagram : option (gmap string value)) : writing :=
  match localtime datagram_time with
  | Raise e => ([], Raise e)
  | Ok secs =>
      match datagram with
      | None => ([Write_time secs], Raise TypeError)
      | Some d =>
          (Write_time secs :: map (fun element => Write_cell (cell d element)) P1_KEYS
             ++ [Write_text (String "010" EmptyString)], Ok tt)
      end
  end.

Fixpoint write_datagrams (datagrams : list (value * option (gmap string value)))
    : writing :=
  match datagrams with
  | [] => ([], Ok tt)
  | (datagram_time, datagram) :: rest =>
      and_then (write_datagram datagram_time datagram) (write_datagrams rest)
  end.

(** [write_to_csv_file(datagrams)]; [csv_file_exists] is what
    [csv_file.is_file()] answers. *)
Definition write_to_csv_file (csv_file_exists : bool)
    (datagrams : list (value * option (gmap string value))) : writing :=
  and_then (if csv_file_exists then ([], Ok tt) else write_header)
           (write_datagrams datagrams).

(** A line of the weekly log: the time printed with [%d] and the six
    readings as [%7.3f] and [%5.3f] receive them, as floats. *)
Record weekly_line := {
  w_time : Z;
  w_in_t1 : spec_float; w_in_t2 : spec_float; w_power_in : spec_float;
  w_out_t1 : spec_float; w_out_t2 : spec_float; w_power_out : spec_float
}.

(** The line [flush_data] formats for one measurement; [%f] converts its
    argument as [float()] does and refuses a string. *)
Definition format_measurement (m : measurement) : outcome weekly_line :=
  a ← to_float (m_in_t1 m); b ← to_float (m_in_t2 m); c ← to_float (m_power_in m);
  d ← to_float (m_out_t1 m); e ← to_float (m_out_t2 m); f ← to_float (m_power_out m);
  Ok {| w_time := m_time m; w_in_t1 := a; w_in_t2 := b; w_power_in := c;
        w_out_t1 := d; w_out_t2 := e; w_power_out := f |}.

(** The loop of [flush_data]: the lines written, and how it ended. *)
Fixpoint write_measurements (ms : list measurement) : list weekly_line * outcome unit :=
  match ms with
  | [] => ([], Ok tt)
  | m :: rest =>
      match format_measurement m with
      | Ok line =>
          let '(lines, r) := write_measurements rest in (line :: lines, r)
      | Raise e => ([], Raise e)
      end
  end.

(** What a call of [flush_data] leaves: the lines appended to the weekly
    log, the object, and the outcome. *)
Record flushed := {
  flushed_lines : list weekly_line;
  flushed_meter : SlimmeMeter;
  flushed_outcome : outcome unit
}.

(** [SlimmeMeter.flush_data] *)
Definition flush_data (s : SlimmeMeter) : flushed :=
  match write_measurements (measurements s) with
  | (written, Ok _) =>
      {| flushed_lines := written; flushed_meter := set_measurements [] s;
         flushed_outcome := Ok tt |}
  | (written, Raise e) =>
      {| flushed_lines := written; flushed_meter := s; flushed_outcome := Raise e |}
  end.

(** The float 0.25 *)
Definition quarter : spec_float := S754_finite false 4503599627370496 (-54).

(** The test of [main] before each export,
    [(now % flushperiod) < threshold and (now - flushtime) > 0.25 * flushperiod];
    [flushtime] is the float [time.time()] read at start-up, and after
    the first export the integer [now] of that export. *)
Definition due (now : Z) (flushtime : value) (flushperiod threshold : Z)
    : outcome bool :=
  if flushperiod =? 0 then Raise ZeroDivisionError
  else if now mod flushperiod <? threshold then
    elapsed ← py_sub (VInt now) flushtime;
    grace ← py_mul (VFloat quarter) (VInt flushperiod);
    py_gt elapsed grace
  else Ok false.

(** The warnings about missed telegrams among the effects of a call: the
    numbers logged. *)
Definition gaps (es : list effect) : list value :=
  omap (fun e => match e with Warning_missed delta => Some delta | _ => None end) es.

(** What ingest does to [lastten] on the arrival of [row]. *)
Definition pushed (buffer : list sample) (row : sample) : list sample :=
  (if 120 <? Z.of_nat (length buffer) then List.tl buffer else buffer) ++ [row].

(** The telegram as [read_datagram] uses it: power out 0 when absent. *)
Definition with_power_out (telegram : gmap string value) : gmap string value :=
  match telegram !! "1-0:2.7.0" with
  | None => <["1-0:2.7.0" := VInt 0]> telegram
  | Some _ => telegram
  end.

(** A run of rows that begins with a row and whose rows all fall in the
    ten seconds of that first row. *)
Definition same_ten_seconds (run : list sample) : Prop :=
  exists row0 rest,
    run = row0 :: rest /\ Forall (fun row => row.1.1 / 10 = row0.1.1 / 10) run.

(** [row] is the line [print_csv] writes for [entry]. *)
Definition row_of (entry : csv_entry) (row : csv_row) : Prop :=
  interval_row entry = Ok row.

(** [line] is the line [flush_data] writes for [m]. *)
Definition line_of (m : measurement) (line : weekly_line) : Prop :=
  format_measurement m = Ok line.

(** The test on which [read_datagram] closes a window. *)
Definition closes (telegram_time csvfm : Z) : bool :=
  ((telegram_time mod 300 <? 3) && (10 <? telegram_time - csvfm))
  || (300 <? telegram_time - csvfm).

End Exporters.

(* ===================================================================== *)
(** ** Inputs used in the statements on the rest of the code *)
(* ===================================================================== *)

Module Samples.
Import Py.

(** The character of a decimal digit. *)
Definition digit_char (d : Z) : ascii := ascii_of_N (Z.to_N (48 + d mod 10)).

(** The text of a power reading of [n] watts as the meter prints it:
    two digits, a point, three digits, [*kW]. *)
Definition kw_text (n : Z) : string :=
  String (digit_char (n / 10000)) (String (digit_char (n / 1000))
    (String "." (String (digit_char (n / 100)) (String (digit_char (n / 10))
      (String (digit_char n) "*kW"))))).

(** The watts the decoder reads from [kw_text n]. *)
Definition kw_read (n : Z) : option Z :=
  match P1listener.parse_p1_value (kw_text n) with
  | Ok (VInt z) => Some z
  | _ => None
  end.

(** The readings among [ns] that the decoder reads one watt low; [None]
    when one of [ns] is read neither exactly nor one watt low. *)
Fixpoint kw_low (ns : list Z) : option (list Z) :=
  match ns with
  | [] => Some []
  | n :: rest =>
      match kw_read n with
      | Some z =>
          if z =? n then kw_low rest
          else if z =? n - 1 then option_map (cons n) (kw_low rest)
          else None
      | None => None
      end
  end.

(** The readings 0, 1, ..., [n - 1]. *)
Definition readings (n : nat) : list Z := map Z.of_nat (seq 0 n).

End Samples.

(* ===================================================================== *)
(** ** Invariants of the decoder loop *)
(* ===================================================================== *)

Module Invariants.
Import Py P1listener.

(** What holds of the variables of the loop between two iterations: inside
    a frame, [data] has the number of the frame (the counter), its start
    time and its header line; outside, [data] is empty. *)
Definition consistent (st : state) : Prop :=
  if first_line_read st then
    meta (data st) !! "frame-number" = Some (VInt (datagram_counter st)) /\
    (exists t, meta (data st) !! "frame-start-time" = Some (VFloat t)) /\
    (exists h, telegram (data st) !! "header" = Some (VStr h) /\
               startswith "/" h = true)
  else data st = empty_datagram.

(** The number of frames sent so far. *)
Definition completed (st : state) : Z :=
  if first_line_read st then datagram_counter st - 1 else datagram_counter st.

(** [data['meta']['frame-number']] of a datagram. *)
Definition frame_number (d : datagram) : option value := meta d !! "frame-number".

(** A datagram with one header line, a four-character checksum, a frame
    number, both times and a duration. *)
Definition complete (d : datagram) : Prop :=
  (exists h, telegram d !! "header" = Some (VStr h) /\ startswith "/" h = true) /\
  (exists c, telegram d !! "checksum" = Some (VStr c) /\ len c = 4) /\
  (exists n, meta d !! "frame-number" = Some (VInt n)) /\
  (exists t, meta d !! "frame-start-time" = Some (VFloat t)) /\
  (exists t, meta d !! "frame-end-time" = Some (VFloat t)) /\
  (exists ms, meta d !! "frame-time-duration" = Some (VInt ms)).

(** The numbers [first + 1], ..., [first + n], as frame numbers. *)
Definition numbered (first : Z) (n : nat) : list (option value) :=
  map (fun i => Some (VInt (first + Z.of_nat i))) (seq 1 n).

End Invariants.

(* ===================================================================== *)
(** ** Further states and inputs *)
(* ===================================================================== *)

Module Scenes.
Import Py Fixtures.

(** An engine that holds the windows given and nothing else. *)
Definition holding (windows : list P1reader.csv_entry) : P1reader.SlimmeMeter :=
  P1reader.set_csvdata windows P1reader.init.

(** A window in which a telegram carried a text as its power in. *)
Definition text_window : P1reader.csv_entry :=
  {| P1reader.epoch_time := 600;
     P1reader.power_watt := VInt 2785;
     P1reader.csvverbruiklist := [VInt 10; VStr "n/a"];
     P1reader.power_watt_levering := VInt 14058;
     P1reader.csvleveringlist := [VInt 0; VInt 0] |}.

(** The row of [closed_window]. *)
Definition closed_row : P1reader.csv_row :=
  {| P1reader.row_time := 300;
     P1reader.row_total_in := VInt 2785;
     P1reader.row_minI := 10; P1reader.row_avgI := 15; P1reader.row_maxI := 20;
     P1reader.row_total_out := VInt 14058;
     P1reader.row_minO := 0; P1reader.row_avgO := 0; P1reader.row_maxO := 0 |}.








(** An engine that follows [meter] and expects frame 3 next. *)
Definition following : P1reader.SlimmeMeter :=
  P1reader.set_telegram_framenumber (VInt 3)
    (P1reader.set_who (Some meter) P1reader.init).

(** The datagram sent for the frame of [telegram_lines] that is the
    [number]th, started at [t0] and ended at [t3], [ms] milliseconds
    later. *)
Definition frame_sent (number : Z) (t0 t3 : spec_float) (ms : Z) : P1listener.datagram :=
  {| P1listener.meta :=
       <["frame-time-duration" := VInt ms]>
       (<["frame-end-time" := VFloat t3]>
       (<["frame-number" := VInt number]> {["frame-start-time" := VFloat t0]}));
     P1listener.telegram :=
       <["checksum" := VStr "1234"]>
       (<["1-0:2.7.0" := VInt 100]>
       (<["1-0:1.7.0" := VInt 500]> {["header" := VStr "/ISK5\2M550T-1013"]})) |}.

(** The lines of two frames, the second within one clock reading. *)
Definition two_frames : list (spec_float * string) :=
  telegram_lines clock clock clock clock_later ++
  telegram_lines clock_later clock_later clock_later clock_later.

(** The decoder between two frames, after [n] frames. *)
Definition idle_after (n : Z) : P1listener.state :=
  {| P1listener.data := P1listener.empty_datagram;
     P1listener.first_line_read := false;
     P1listener.datagram_counter := n |}.

(** Lines read before the first header: the tail of a frame. *)
Definition tail_of_a_frame : list (spec_float * string) :=
  [(clock, "1-0:2.7.0(00.100*kW)"); (clock, "!1234"); (clock, EmptyString)].

(** The flush period and the threshold of the four exports of [main], as
    configured by default: details, HTML report, weekly log, interval. *)
Definition default_schedules : list (Z * Z) := [(300, 5); (30, 2); (30, 5); (1800, 5)].

(** The values of the fields among the writes of [write_to_csv_file]. *)
Definition cells (ws : list Exporters.detail_write) : list value :=
  omap (fun w => match w with Exporters.Write_cell v => Some v | _ => None end) ws.

(** The values of the 36 columns for a datagram; none for [None]. *)
Definition cells_of (datagram : option (gmap string value)) : list value :=
  match datagram with
  | Some d => map (Exporters.cell d) Exporters.P1_KEYS
  | None => []
  end.

(** A datagram that [write_to_csv_file] can write: a telegram, with a time
    that [time.localtime] accepts. *)
Definition writable (entry : value * option (gmap string value)) : Prop :=
  (exists secs, P1reader.localtime entry.1 = Ok secs) /\ entry.2 <> None.

(** A datagram on which [write_to_csv_file] raises [e]: its time is
    refused with [e], or its time is accepted and it is [None], whose
    membership test is a [TypeError]. *)
Definition refused (e : exn) (entry : value * option (gmap string value)) : Prop :=
  P1reader.localtime entry.1 = Raise e \/
  (exists secs, P1reader.localtime entry.1 = Ok secs) /\ entry.2 = None /\ e = TypeError.

End Scenes.

(* ===================================================================== *)
(** ** Facts about the conversion of integers to doubles *)
(* ===================================================================== *)

Module F64Facts.
Import F64.

Lemma digits2_size p : digits2_pos p = Pos.size p.
Proof. induction p; cbn; congruence. Qed.

Lemma digits2_lower p : 2 ^ (Zpos (digits2_pos p) - 1) <= Zpos p.
Proof.
  rewrite digits2_size.
  pose proof (Pos.size_le p) as H.
  assert (2 ^ Zpos (Pos.size p) <= 2 * Zpos p) as H'.
  { change 2 with (Zpos 2) at 1. rewrite <- Pos2Z.inj_pow. lia. }
  replace (Zpos (Pos.size p)) with (Zpos (Pos.size p) - 1 + 1) in H' by lia.
  rewrite Z.pow_add_r in H' by lia. lia.
Qed.

Lemma shr_1_m mrs : shr_m (shr_1 mrs) = Z.quot2 (shr_m mrs).
Proof. destruct mrs as [[|[p|p|]|[p|p|]] r s]; reflexivity. Qed.

Lemma iter_pos_shr_1 n mrs :
  shr_m (SpecFloat.iter_pos shr_1 n mrs) = Pos.iter Z.quot2 (shr_m mrs) n.
Proof.
  revert mrs. induction n as [n IH|n IH|]; intros mrs; cbn.
  - rewrite !IH, shr_1_m, !Pos.iter_swap. reflexivity.
  - rewrite !IH. reflexivity.
  - apply shr_1_m.
Qed.

Lemma iter_quot2 n m : 0 <= m -> Pos.iter Z.quot2 m n = m / 2 ^ Zpos n.
Proof.
  intros Hm. induction n as [|n IH] using Pos.peano_ind.
  - cbn [Pos.iter]. rewrite Zquot2_quot, Z.quot_div_nonneg by lia. reflexivity.
  - rewrite Pos.iter_succ, IH.
    rewrite Zquot2_quot, Z.quot_div_nonneg by (try apply Z.div_pos; lia).
    rewrite Z.div_div by lia.
    rewrite Pos2Z.inj_succ, Z.pow_succ_r by lia. f_equal. lia.
Qed.

(** Shifting a positive mantissa at an exponent above the smallest one
    leaves a positive mantissa and an exponent above the smallest one. *)
Lemma shr_fexp_pos m e l :
  0 < m -> emin prec emax <= e ->
  0 < shr_m (fst (shr_fexp prec emax m e l)) /\
  emin prec emax <= snd (shr_fexp prec emax m e l).
Proof.
  intros Hm He. unfold shr_fexp, shr.
  destruct m as [|p|p]; try lia. cbn [Zdigits2].
  pose proof (digits2_lower p) as Hd.
  set (d := Zpos (digits2_pos p)) in *.
  assert (0 < d) as Hd0 by (unfold d; lia).
  destruct (fexp prec emax (d + e) - e) as [|n|n] eqn:En; cbn [fst snd].
  - split; [|lia]. destruct l as [|[]]; cbn; lia.
  - unfold fexp, emin, prec, emax in *.
    rewrite iter_pos_shr_1.
    assert (shr_m (shr_record_of_loc (Zpos p) l) = Zpos p) as -> by (destruct l as [|[]]; reflexivity).
    rewrite iter_quot2 by lia.
    assert (Zpos n = d - 53) as Hn by lia.
    split; [|lia].
    apply Z.div_str_pos. split; [lia|].
    rewrite Hn. etransitivity; [|exact Hd].
    apply Z.pow_le_mono_r; lia.
  - split; [|lia]. destruct l as [|[]]; cbn; lia.
Qed.

Lemma round_nearest_even_pos m l : 0 < m -> 0 < round_nearest_even m l.
Proof. intros Hm. destruct l as [|[]]; cbn; try destruct (Z.even m); lia. Qed.

Lemma binary_round_aux_nonzero s m e l :
  0 < m -> emin prec emax <= e ->
  is_zero (binary_round_aux prec emax s m e l) = false.
Proof.
  intros Hm He. unfold binary_round_aux.
  destruct (shr_fexp_pos m e l Hm He) as [H1 H2].
  destruct (shr_fexp prec emax m e l) as [mrs' e'].
  cbn [fst snd] in *.
  pose proof (round_nearest_even_pos _ (loc_of_shr_record mrs') H1) as H3.
  destruct (shr_fexp_pos _ e' loc_Exact H3 H2) as [H4 _].
  destruct (shr_fexp prec emax _ e' loc_Exact) as [mrs'' e''].
  cbn [fst] in H4. destruct (shr_m mrs''); try lia.
  destruct (_ <=? _); reflexivity.
Qed.

(** A non-zero integer does not round to zero. *)
Lemma of_Z_nonzero z : z <> 0 -> is_zero (of_Z z) = false.
Proof.
  intros Hz. unfold of_Z, binary_normalize.
  destruct z as [|p|p]; [done| |]; unfold binary_round.
  all: destruct (shl_align p 0 _) as [mz ez] eqn:E.
  all: apply binary_round_aux_nonzero; [lia|].
  all: unfold shl_align in E.
  all: destruct (fexp prec emax (Z.pos (digits2_pos p) + 0) - 0) eqn:E'; injection E as <- <-.
  all: unfold fexp, emin, prec, emax in *; lia.
Qed.

End F64Facts.

(* ===================================================================== *)
(** ** Reasoning about method calls *)
(* ===================================================================== *)

Module ReaderLogic.
Import Py P1reader.

(** *** Running a call step by step *)

Lemma run_ret {A B} (a : A) (k : A -> M B) s : (M_ret a ≫= k) s = k a s.
Proof. unfold mbind, M_mbind, M_bind, M_ret. by destruct (k a s). Qed.

Lemma run_lift {A B} (o : outcome A) (k : A -> M B) s :
  (lift o ≫= k) s =
  match o with
  | Ok a => k a s
  | Raise e => {| self := s; effects := []; result := Raise e |}
  end.
Proof.
  unfold mbind, M_mbind, M_bind, lift.
  destruct o as [a|e]; [by destruct (k a s) | done].
Qed.

Lemma run_raise {A B} e (k : A -> M B) s :
  (raise e ≫= k) s = {| self := s; effects := []; result := Raise e |}.
Proof. done. Qed.

Lemma run_get {B} (k : SlimmeMeter -> M B) s : (get ≫= k) s = k s s.
Proof. unfold mbind, M_mbind, M_bind, get. by destruct (k s s). Qed.

Lemma run_modify {B} f (k : unit -> M B) s : (modify f ≫= k) s = k tt (f s).
Proof. unfold mbind, M_mbind, M_bind, modify. by destruct (k tt (f s)). Qed.

Lemma run_emit {B} e (k : unit -> M B) s : (emit e ≫= k) s = after e (k tt s).
Proof. unfold mbind, M_mbind, M_bind, emit, after. by destruct (k tt s). Qed.

Lemma run_assoc {A B C} (c : M A) (k : A -> M B) (k' : B -> M C) s :
  ((c ≫= k) ≫= k') s = (c ≫= (fun a => k a ≫= k')) s.
Proof.
  unfold mbind, M_mbind, M_bind.
  destruct (c s) as [s1 e1 [a|e]]; [|done].
  destruct (k a s1) as [s2 e2 [b|e]]; [|done].
  destruct (k' b s2) as [s3 e3 r]. by rewrite app_assoc.
Qed.

Lemma run_when {B} (b : bool) (c : M unit) (k : unit -> M B) s :
  (when b c ≫= k) s = if b then (c ≫= k) s else k tt s.
Proof. destruct b; [done | apply run_ret]. Qed.

(** The call [c ≫= k] seen from outside. *)
Lemma run_bind {A B} (c : M A) (k : A -> M B) s :
  (c ≫= k) s =
  match result (c s) with
  | Ok a =>
      {| self := self (k a (self (c s)));
         effects := effects (c s) ++ effects (k a (self (c s)));
         result := result (k a (self (c s))) |}
  | Raise e => {| self := self (c s); effects := effects (c s); result := Raise e |}
  end.
Proof.
  unfold mbind, M_mbind, M_bind.
  destruct (c s) as [s1 e1 [a|e]]; cbn; [|done]. by destruct (k a s1).
Qed.

(** The last call of a sequence. *)
Lemma end_ret {A} (a : A) s :
  M_ret a s = {| self := s; effects := []; result := Ok a |}.
Proof. done. Qed.

Lemma end_lift {A} (o : outcome A) s :
  lift o s = {| self := s; effects := []; result := o |}.
Proof. done. Qed.

Lemma end_modify f s :
  modify f s = {| self := f s; effects := []; result := Ok tt |}.
Proof. done. Qed.

Lemma end_emit e s :
  emit e s = {| self := s; effects := [e]; result := Ok tt |}.
Proof. done. Qed.

Lemma end_when (b : bool) (c : M unit) s :
  when b c s = if b then c s else {| self := s; effects := []; result := Ok tt |}.
Proof. by destruct b. Qed.

Ltac run_M :=
  repeat first
    [ rewrite run_assoc | rewrite run_ret | rewrite run_get | rewrite run_modify
    | rewrite run_emit | rewrite run_raise | rewrite run_when | rewrite run_lift
    | rewrite end_ret | rewrite end_lift | rewrite end_modify | rewrite end_emit
    | rewrite end_when
    | progress cbn beta iota
    | progress cbn [self effects result after] ].

(** *** What survives a call *)

Section Stable.
Context (I : SlimmeMeter -> Prop).

Lemma stable_bind {A B} (c : M A) (k : A -> M B) :
  stable I c -> (forall a, stable I (k a)) -> stable I (c ≫= k).
Proof.
  intros Hc Hk s Hs. rewrite run_bind. specialize (Hc s Hs).
  destruct (result (c s)); cbn; [by apply Hk | done].
Qed.

Lemma stable_ret {A} (a : A) : stable I (M_ret a).
Proof. by intros s Hs. Qed.

Lemma stable_lift {A} (o : outcome A) : stable I (lift o).
Proof. by intros s Hs. Qed.

Lemma stable_raise {A} e : stable I (@raise A e).
Proof. by intros s Hs. Qed.

Lemma stable_get : stable I get.
Proof. by intros s Hs. Qed.

Lemma stable_emit e : stable I (emit e).
Proof. by intros s Hs. Qed.

Lemma stable_modify f : (forall s, I s -> I (f s)) -> stable I (modify f).
Proof. intros Hf s Hs. by apply Hf. Qed.

Lemma stable_when b c : stable I c -> stable I (when b c).
Proof. destruct b; [done | intros _; apply stable_ret]. Qed.

End Stable.

(** Walks through a call; [tac] shows that an assignment keeps [I]. *)
Ltac stable_with tac :=
  repeat match goal with
  | |- stable _ (mbind _ _) => apply stable_bind; [|intros]
  | |- stable _ (lift _) => apply stable_lift
  | |- stable _ (raise _) => apply stable_raise
  | |- stable _ get => apply stable_get
  | |- stable _ (emit _) => apply stable_emit
  | |- stable _ (M_ret _) => apply stable_ret
  | |- stable _ (when _ _) => apply stable_when
  | |- stable _ (modify _) => apply stable_modify; intros ? ?; cbn beta; tac
  | |- stable _ (if ?b then _ else _) => destruct b
  | |- stable _ (match ?x with _ => _ end) => destruct x
  end.

(** *** What a call emits *)

Section Emits.
Context (P : effect -> Prop).

Lemma emits_bind {A B} (c : M A) (k : A -> M B) :
  emits P c -> (forall a, emits P (k a)) -> emits P (c ≫= k).
Proof.
  intros Hc Hk s. rewrite run_bind. specialize (Hc s).
  destruct (result (c s)); cbn; [|done].
  apply Forall_app. split; [done | apply Hk].
Qed.

Lemma emits_ret {A} (a : A) : emits P (M_ret a).
Proof. intros s. constructor. Qed.

Lemma emits_lift {A} (o : outcome A) : emits P (lift o).
Proof. intros s. constructor. Qed.

Lemma emits_raise {A} e : emits P (@raise A e).
Proof. intros s. constructor. Qed.

Lemma emits_get : emits P get.
Proof. intros s. constructor. Qed.

Lemma emits_modify f : emits P (modify f).
Proof. intros s. constructor. Qed.

Lemma emits_emit e : P e -> emits P (emit e).
Proof. intros He s. by repeat constructor. Qed.

Lemma emits_when b c : emits P c -> emits P (when b c).
Proof. destruct b; [done | intros _; apply emits_ret]. Qed.

End Emits.

Ltac emits_auto :=
  repeat match goal with
  | |- emits _ (mbind _ _) => apply emits_bind; [|intros]
  | |- emits _ (lift _) => apply emits_lift
  | |- emits _ (raise _) => apply emits_raise
  | |- emits _ get => apply emits_get
  | |- emits _ (modify _) => apply emits_modify
  | |- emits _ (M_ret _) => apply emits_ret
  | |- emits _ (when _ _) => apply emits_when
  | |- emits _ (emit _) => apply emits_emit; done
  | |- emits _ (if ?b then _ else _) => destruct b
  | |- emits _ (match ?x with _ => _ end) => destruct x
  end.

(** *** What a call returns *)

Section Returns.
Context {B : Type} (Q : B -> Prop).



Lemma returns_raise e : returns Q (raise e).
Proof. intros s b. done. Qed.

End Returns.

End ReaderLogic.

(* ===================================================================== *)
(** ** Facts about the patterns and the decoder *)
(* ===================================================================== *)

Module DecoderFacts.
Import Py Re P1listener.

(** A match only adds marks, and only those of its pattern. *)
Lemma exec_marks p : forall s marks r,
  exec p s marks = Some r ->
  exists new, r = new ++ marks /\ Forall (fun m => In (tag_of m) (tags p)) new.
Proof.
  induction p as [|i p IH]; intros s marks r; cbn [exec tags].
  - intros [= <-]. by exists [].
  - destruct i as [c|cls|cls|n|n|].
    + destruct s as [|a s]; [done|]. case_match; [apply IH|done].
    + induction s as [|a s IHs]; [done|].
      destruct (cls a); [|done].
      match goal with |- context [match ?x with _ => _ end] => destruct x eqn:E end.
      * intros [= <-]. by apply IHs.
      * apply IH.
    + induction s as [|a s IHs].
      * destruct (exec p EmptyString marks) eqn:E; [|done]. intros [= <-]. by apply IH in E.
      * destruct (exec p (String a s) marks) eqn:E.
        { intros [= <-]. by apply IH in E. }
        destruct (cls a); [apply IHs|done].
    + intros H. apply IH in H as (new & -> & Hnew).
      exists (new ++ [{| mark_name := n; mark_open := true; mark_rest := s |}]).
      split; [by rewrite <- app_assoc|].
      apply Forall_app. split.
      * eapply Forall_impl; [done|]. intros m Hm. by right.
      * constructor; [by left|constructor].
    + intros H. apply IH in H as (new & -> & Hnew).
      exists (new ++ [{| mark_name := n; mark_open := false; mark_rest := s |}]).
      split; [by rewrite <- app_assoc|].
      apply Forall_app. split.
      * eapply Forall_impl; [done|]. intros m Hm. by right.
      * constructor; [by left|constructor].
    + destruct (at_end s); [apply IH|done].
Qed.

Lemma find_mark_app n o new marks :
  Forall (fun m => tag_of m <> (n, o)) new ->
  find_mark n o (new ++ marks) = find_mark n o marks.
Proof.
  unfold find_mark. induction 1 as [|m new Hm _ IH]; [done|]. cbn.
  destruct (String.eqb_spec (mark_name m) n) as [<-|]; cbn; [|done].
  destruct (Bool.eqb_spec (mark_open m) o) as [<-|]; [|done].
  by destruct Hm.
Qed.

Lemma take_prefix n s :
  take n s = EmptyString \/ exists c r, s = String c r /\ exists r', take n s = String c r'.
Proof. destruct n, s; cbn; eauto 6. Qed.

(** The key a P1 pattern captures is empty or begins with a digit. *)
Lemma key_digit rest s r :
  ~ In ("key", true) (tags rest) ->
  exec ([Open "key"] ++ obis_code ++ rest) s [] = Some r ->
  group "key" r = EmptyString \/ exists c k, group "key" r = String c k /\ digit c = true.
Proof.
  intros Hrest H. cbn [app exec] in H.
  assert (exists a s', s = String a s' /\ digit a = true) as (a & s' & -> & Ha).
  { pose proof H as H'. unfold obis_code in H'. cbn [app exec] in H'.
    destruct s as [|a s']; [done|]. destruct (digit a) eqn:E; [eauto|done]. }
  apply exec_marks in H as (new & -> & Hnew).
  unfold group. rewrite find_mark_app.
  - change (find_mark "key" true [_]) with (String a s').
    destruct (take_prefix
                (String.length (String a s') -
                 String.length (find_mark "key" false
                   (new ++ [{| mark_name := "key"; mark_open := true;
                               mark_rest := String a s' |}])))
                (String a s')) as [->|(c & r & [= <- <-] & r' & ->)]; eauto.
  - eapply Forall_impl; [done|]. intros m Hm Heq. cbn beta in Hm.
    rewrite Heq in Hm. unfold obis_code in Hm.
    change (tags (_ ++ rest)) with (tags rest) in Hm. done.
Qed.

Lemma search_exec p s r : search p s = Some r -> exists s', exec p s' [] = Some r.
Proof.
  induction s as [|a s IH]; cbn [search].
  - destruct (exec p EmptyString []) eqn:E; [|done]. intros [= <-]. eauto.
  - destruct (exec p (String a s) []) eqn:E; [intros [= <-]; eauto|apply IH].
Qed.

Lemma digit_not_h c k : digit c = true -> String c k <> "header".
Proof. intros Hc [= -> _]. done. Qed.

(** No field line overwrites the header. *)
Lemma one_value_key line m :
  search P1_ONE_VALUE_RGX line = Some m -> group "key" m <> "header".
Proof.
  intros H. apply search_exec in H as [s H].
  apply key_digit in H as [->|(c & k & -> & Hc)]; [done|by apply digit_not_h|].
  cbn. intuition congruence.
Qed.

Lemma two_values_key line m sfx :
  search P1_TWO_VALUES_RGX line = Some m ->
  group "key" m +:+ String "." sfx <> "header".
Proof.
  intros H. apply search_exec in H as [s H].
  apply key_digit in H as [->|(c & k & -> & Hc)]; [done|by apply digit_not_h|].
  cbn. intuition congruence.
Qed.


Lemma to_float_1000 : to_float (VInt 1000) = Ok (F64.of_Z 1000).
Proof. reflexivity. Qed.

(** The end of a frame: the datagram sent and the state left. *)
Lemma step_frame_end now line st start ms :
  first_line_read st = true ->
  startswith "!" line && (len line =? 5) = true ->
  meta (data st) !! "frame-start-time" = Some (VFloat start) ->
  F64.trunc (F64.mul (F64.of_Z 1000) (F64.sub now start)) = Some ms ->
  step now line st =
  Ok {| next := {| data := empty_datagram; first_line_read := false;
                   datagram_counter := datagram_counter st |};
        sent := Some {| meta := <["frame-time-duration" := VInt ms]>
                                  (<["frame-end-time" := VFloat now]> (meta (data st)));
                        telegram := <["checksum" := VStr (tail line)]> (telegram (data st)) |};
        logged := [End_line_found] |}.
Proof.
  intros Hin Hend Hstart Hms. unfold step. rewrite Hin, Hend. cbn [negb andb].
  unfold getitem. rewrite lookup_insert_eq, lookup_insert_ne, Hstart by done.
  cbn [mbind outcome_bind py_sub float_op to_float].
  unfold py_mul, float_op. rewrite to_float_1000.
  cbn [mbind outcome_bind to_float py_int]. unfold int_of_float. rewrite Hms.
  reflexivity.
Qed.

End DecoderFacts.

(* ===================================================================== *)
(** ** Facts about the blocks of [read_datagram] and about [print_csv] *)
(* ===================================================================== *)

Module ReaderFacts.
Import Py P1reader ReaderLogic F64Facts.

Lemma getitem_Some {A} (d : gmap string A) k v :
  d !! k = Some v -> getitem d k = Ok v.
Proof. unfold getitem. by intros ->. Qed.

(** *** The attributes each block assigns *)

Lemma track_sender_stable I meta_info from :
  (forall v s, I s -> I (set_who v s)) ->
  (forall v s, I s -> I (set_telegram_framenumber v s)) ->
  stable I (track_sender meta_info from).
Proof. intros Hw Hn. unfold track_sender. stable_with auto. Qed.

Lemma weekly_sample_stable CONFIG I t tg :
  (forall v s, I s -> I (set_measurements v s)) ->
  stable I (weekly_sample CONFIG t tg).
Proof. intros Hm. unfold weekly_sample. stable_with auto. Qed.

Lemma rolling_buffer_stable I t tg :
  (forall v s, I s -> I (set_lastten v s)) ->
  stable I (rolling_buffer t tg).
Proof. intros Hl. unfold rolling_buffer. stable_with auto. Qed.

Lemma periodic_batch_stable I t tg :
  (forall v s, I s -> I (set_csvverbruik v s)) ->
  (forall v s, I s -> I (set_csvlevering v s)) ->
  (forall v s, I s -> I (set_csvdata v s)) ->
  (forall v s, I s -> I (set_csvfm v s)) ->
  stable I (periodic_batch t tg).
Proof. intros H1 H2 H3 H4. unfold periodic_batch. stable_with auto. Qed.

(** *** The rolling buffer *)

Lemma rolling_buffer_bound t tg : stable bounded_buffer (rolling_buffer t tg).
Proof.
  intros s Hs. unfold bounded_buffer in *. unfold rolling_buffer. rewrite run_get.
  destruct (120 <? _) eqn:E; unfold getitem;
    destruct (tg !! "1-0:1.7.0"); run_M; [|done| |done];
    destruct (tg !! "1-0:2.7.0"); run_M; try done; cbn.
  - rewrite length_app, length_tl. cbn. lia.
  - rewrite length_app. cbn. lia.
Qed.

(** The buffer never holds more than 121 rows, whatever is received. *)
Lemma lastten_bound CONFIG parsed from :
  stable bounded_buffer (read_datagram CONFIG parsed from).
Proof.
  unfold read_datagram. destruct parsed as [data|]; stable_with idtac.
  - apply track_sender_stable; done.
  - apply weekly_sample_stable; done.
  - apply rolling_buffer_bound.
  - apply periodic_batch_stable; done.
Qed.

(** *** Sequence tracking *)

Lemma py_ne_same n : py_ne (VInt n) (VInt n) = false.
Proof. unfold py_ne, py_eq. cbn. by rewrite Z.compare_refl. Qed.

Lemma py_ne_int n k : py_ne (VInt n) (VInt k) = negb (n =? k).
Proof.
  unfold py_ne, py_eq. cbn. rewrite !Z.mul_1_r.
  destruct (Z.compare_spec n k); destruct (Z.eqb_spec n k); done || lia.
Qed.

(** The first telegram of a new sender: tracking starts at its number. *)
Lemma track_sender_new meta_info n from s :
  meta_info !! "frame-number" = Some (VInt n) ->
  who s <> Some from ->
  track_sender meta_info from s =
  {| self := set_telegram_framenumber (VInt (n + 1))
               (set_telegram_framenumber (VInt n) (set_who (Some from) s));
     effects := [Info_sender_restarted from];
     result := Ok tt |}.
Proof.
  intros Hn Hw. unfold track_sender, getitem. rewrite Hn. run_M.
  rewrite bool_decide_true by done. run_M.
  cbn [telegram_framenumber set_telegram_framenumber].
  rewrite py_ne_same. run_M. done.
Qed.

(** A telegram of the sender on record: a warning exactly when its number
    is not the expected one, and tracking continues from its number. *)
Lemma track_sender_known meta_info n k from s :
  meta_info !! "frame-number" = Some (VInt n) ->
  who s = Some from ->
  telegram_framenumber s = VInt k ->
  track_sender meta_info from s =
  {| self := set_telegram_framenumber (VInt (n + 1))
               (if n =? k then s else set_telegram_framenumber (VInt n) s);
     effects := if n =? k then [] else [Warning_missed (VInt (k - n))];
     result := Ok tt |}.
Proof.
  intros Hn Hw Hk. unfold track_sender, getitem. rewrite Hn. run_M.
  rewrite bool_decide_false by (by intros []). run_M.
  rewrite Hk, py_ne_int. destruct (Z.eqb_spec n k) as [->|Hne];
    cbn [negb py_sub py_add]; run_M; done.
Qed.

(** Nothing after the bookkeeping warns about missed telegrams. *)
Lemma after_tracking_no_gap CONFIG meta_info (telegram : gmap string value) :
  emits no_gap
    (start ← lift (getitem meta_info "frame-start-time");
     telegram_time ← lift (py_int start);
     duration ← lift (getitem meta_info "frame-time-duration");
     slow ← lift (py_gt duration (VInt 500));
     when slow
       (duration' ← lift (getitem meta_info "frame-time-duration");
        emit (Warning_took_too_much_time duration'));;
     let telegram :=
       match telegram !! "1-0:2.7.0" with
       | None => <["1-0:2.7.0" := VInt 0]> telegram
       | Some _ => telegram
       end in
     weekly_sample CONFIG telegram_time telegram;;
     rolling_buffer telegram_time telegram;;
     periodic_batch telegram_time telegram;;
     M_ret (Some telegram)).
Proof.
  unfold weekly_sample, rolling_buffer, periodic_batch. cbn zeta. emits_auto.
Qed.

Lemma new_sender_no_gap CONFIG data meta_info n from s :
  data !! "meta" = Some meta_info ->
  meta_info !! "frame-number" = Some (VInt n) ->
  who s <> Some from ->
  Forall no_gap (effects (read_datagram CONFIG (Some data) from s)).
Proof.
  intros Hm Hn Hw. unfold read_datagram.
  rewrite (getitem_Some _ _ _ Hm). run_M.
  destruct (getitem data "telegram") as [telegram|]; run_M; [|done].
  rewrite run_bind, (track_sender_new _ n) by done. cbn [result effects self].
  constructor; [done|]. cbn [app]. apply after_tracking_no_gap.
Qed.

(** A telegram from a sender that is not the one on record: the change is
    logged first, and however the call ends the sender is the one on
    record afterwards and the number expected next is the number of the
    telegram plus one. *)
Lemma new_sender_resets CONFIG data meta_info telegram n from s :
  data !! "meta" = Some meta_info ->
  data !! "telegram" = Some telegram ->
  meta_info !! "frame-number" = Some (VInt n) ->
  who s <> Some from ->
  let r := read_datagram CONFIG (Some data) from s in
  (exists rest, effects r = Info_sender_restarted from :: rest) /\
  who (self r) = Some from /\
  telegram_framenumber (self r) = VInt (n + 1).
Proof.
  intros Hm Ht Hn Hw. cbn zeta. unfold read_datagram.
  rewrite (getitem_Some _ _ _ Hm), (getitem_Some _ _ _ Ht). run_M.
  rewrite run_bind, (track_sender_new _ n) by done. cbn [result effects self].
  match goal with |- context [self (?c ?s1)] =>
    assert (stable (fun s' => who s' = Some from /\ telegram_framenumber s' = VInt (n + 1)) c)
      as Hkeep
  end.
  { unfold weekly_sample, rolling_buffer, periodic_batch. stable_with ltac:(cbn; done). }
  split; [cbn [app]; eauto|]. by apply Hkeep.
Qed.

(** *** The periodic batch *)

Lemma appended_refl s : appended s s.
Proof. exists []. by rewrite app_nil_r. Qed.

(** Whatever the block appends to [csvdata] carries the samples of the
    telegram at hand. *)
Lemma periodic_batch_appended s0 t tg : stable (appended s0) (periodic_batch t tg).
Proof.
  intros s (new & Hnew & Hall). unfold periodic_batch, getitem.
  destruct (tg !! "1-0:1.7.0") as [p|]; run_M; [|exists new; by cbn].
  destruct (tg !! "1-0:2.7.0") as [q|]; run_M; [|exists new; by cbn].
  cbn [csvfm set_csvlevering set_csvverbruik].
  destruct (_ || _); [|exists new; by cbn].
  destruct (tg !! "1-0:1.8.1") as [a|]; run_M; [|exists new; by cbn].
  destruct (tg !! "1-0:1.8.2") as [b|]; run_M; [|exists new; by cbn].
  destruct (py_add a b) as [totalO|]; run_M; [|exists new; by cbn].
  destruct (tg !! "1-0:2.8.1") as [c|]; run_M; [|exists new; by cbn].
  destruct (tg !! "1-0:2.8.2") as [d|]; run_M; [|exists new; by cbn].
  destruct (py_add c d) as [totalI|]; run_M; [|exists new; by cbn].
  cbn. eexists (new ++ [_]). rewrite Hnew, app_assoc. split; [done|].
  apply Forall_app. split; [done|]. constructor; [|done].
  split; cbn; by destruct (csvverbruik s), (csvlevering s).
Qed.

Lemma read_datagram_appended CONFIG parsed from s :
  appended s (self (read_datagram CONFIG parsed from s)).
Proof.
  assert (stable (appended s) (read_datagram CONFIG parsed from)) as H.
  { unfold read_datagram. destruct parsed as [data|]; stable_with idtac.
    - apply track_sender_stable; done.
    - apply weekly_sample_stable; done.
    - apply rolling_buffer_stable; done.
    - apply periodic_batch_appended. }
  apply H, appended_refl.
Qed.

(** *** No division by zero in [print_csv] *)

Lemma no_zde_bind {A B} (c : outcome A) (k : A -> outcome B) :
  no_zde c -> (forall a, c = Ok a -> no_zde (k a)) -> no_zde (c ≫= k).
Proof. intros Hc Hk. destruct c as [a|e]; cbn; [by apply Hk | congruence]. Qed.

Lemma to_float_no_zde v : no_zde (to_float v).
Proof. destruct v; cbn; [case_match| |]; done. Qed.

Lemma float_op_no_zde op a b : no_zde (float_op op a b).
Proof.
  unfold float_op. apply no_zde_bind; [apply to_float_no_zde|intros x _].
  apply no_zde_bind; [apply to_float_no_zde|done].
Qed.

Lemma py_compare_no_zde a b : no_zde (py_compare a b).
Proof. destruct a, b; done. Qed.

Lemma py_gt_no_zde a b : no_zde (py_gt a b).
Proof. unfold py_gt. apply no_zde_bind; [apply py_compare_no_zde|done]. Qed.

Lemma py_lt_no_zde a b : no_zde (py_lt a b).
Proof. unfold py_lt. apply no_zde_bind; [apply py_compare_no_zde|done]. Qed.

Lemma py_add_no_zde a b : no_zde (py_add a b).
Proof. destruct a, b; cbn [py_add]; try done; apply float_op_no_zde. Qed.

Lemma py_mul_no_zde a b : no_zde (py_mul a b).
Proof. destruct a, b; cbn [py_mul]; try done; apply float_op_no_zde. Qed.

Lemma int_of_float_no_zde f : no_zde (int_of_float f).
Proof. unfold int_of_float. destruct (F64.trunc f); [done|]. by destruct f. Qed.

Lemma fmt_d_no_zde v : no_zde (fmt_d v).
Proof. destruct v; cbn; [done|apply int_of_float_no_zde|done]. Qed.

Lemma localtime_no_zde v : no_zde (localtime v).
Proof.
  destruct v as [|f|]; cbn; [done| |done].
  destruct (F64.floor f); [done|]. by destruct f.
Qed.

(** Dividing by a non-zero integer is no division by zero. *)
Lemma py_truediv_no_zde a n : n <> 0 -> no_zde (py_truediv a (VInt n)).
Proof.
  intros Hn. destruct a as [x|f|s]; cbn [py_truediv].
  - destruct (n =? 0) eqn:E; [lia|]. by case_match.
  - apply no_zde_bind; [apply to_float_no_zde|intros x _].
    unfold to_float. case_match; [|done]. cbn.
    by rewrite of_Z_nonzero.
  - done.
Qed.

Lemma stats_step_no_zde a e : no_zde (stats_step a e).
Proof.
  unfold stats_step.
  apply no_zde_bind; [apply py_gt_no_zde|intros gt _].
  apply no_zde_bind; [apply py_lt_no_zde|intros lt _].
  apply no_zde_bind; [apply py_add_no_zde|done].
Qed.

Lemma stats_step_N a e a' : stats_step a e = Ok a' -> N a' = N a + 1.
Proof.
  unfold stats_step. destruct (py_gt _ _); [|done]. cbn.
  destruct (py_lt _ _); [|done]. cbn.
  destruct (py_add _ _); [|done]. cbn. by intros [= <-].
Qed.

Lemma stats_loop_no_zde l a : no_zde (stats_loop l a).
Proof.
  revert a. induction l as [|e l IH]; intros a; cbn [stats_loop]; [done|].
  apply no_zde_bind; [apply stats_step_no_zde|intros a' _; apply IH].
Qed.

(** The loop counts the samples: [NI = len(csvverbruiklist)]. *)
Lemma stats_loop_N l a a' :
  stats_loop l a = Ok a' -> N a' = N a + Z.of_nat (length l).
Proof.
  revert a. induction l as [|e l IH]; intros a; cbn [stats_loop length].
  - intros [= <-]. lia.
  - destruct (stats_step a e) as [a1|] eqn:E; [|done]. cbn.
    intros H. apply IH in H. apply stats_step_N in E. lia.
Qed.

Lemma stats_loop_count l a : l <> [] -> stats_loop l stats0 = Ok a -> 1 <= N a.
Proof.
  intros Hl H. apply stats_loop_N in H. destruct l; [done|]. cbn in H. lia.
Qed.

Lemma interval_row_no_zde entry : nonempty_batch entry -> no_zde (interval_row entry).
Proof.
  intros [HI HO]. unfold interval_row.
  apply no_zde_bind; [apply stats_loop_no_zde|intros sI EI].
  apply stats_loop_count in EI; [|done].
  apply no_zde_bind; [apply py_truediv_no_zde; lia|intros avgI _].
  apply no_zde_bind; [apply stats_loop_no_zde|intros sO EO].
  apply stats_loop_count in EO; [|done].
  apply no_zde_bind; [apply py_truediv_no_zde; lia|intros avgO _].
  apply no_zde_bind; [by apply py_truediv_no_zde|intros q _].
  apply no_zde_bind; [apply py_mul_no_zde|intros x _].
  apply no_zde_bind; [apply localtime_no_zde|intros secs _].
  repeat (apply no_zde_bind; [apply fmt_d_no_zde|intros ? _]).
  done.
Qed.

Lemma write_rows_no_zde entries s :
  Forall nonempty_batch entries -> no_zde (result (write_rows entries s)).
Proof.
  intros H. revert s.
  induction H as [|entry rest He _ IH]; intros s; cbn [write_rows]; [done|].
  pose proof (interval_row_no_zde entry He) as Hr.
  destruct (interval_row entry) as [row|e]; run_M;
    [|unfold no_zde in *; congruence].
  apply IH.
Qed.

Lemma write_rows_self entries s : self (write_rows entries s) = s.
Proof.
  revert s. induction entries as [|entry rest IH]; intros s; cbn [write_rows]; [done|].
  destruct (interval_row entry) as [row|e]; run_M; [apply IH|done].
Qed.

Lemma print_csv_no_zde s :
  Forall nonempty_batch (csvdata s) -> no_zde (result (print_csv s)).
Proof.
  intros H. unfold print_csv. rewrite run_get. case_match; [done|].
  rewrite run_bind. pose proof (write_rows_no_zde _ s H).
  destruct (result (write_rows (csvdata s) s)); done.
Qed.

Lemma print_csv_keeps s :
  Forall nonempty_batch (csvdata s) ->
  Forall nonempty_batch (csvdata (self (print_csv s))).
Proof.
  intros H. unfold print_csv. rewrite run_get. case_match; [done|].
  rewrite run_bind, write_rows_self.
  destruct (result (write_rows (csvdata s) s)); cbn; [constructor|done].
Qed.

End ReaderFacts.

(* ===================================================================== *)
(** ** The telegram decoder: end-to-end decoding and a second header *)
(* ===================================================================== *)

Module Decoder.
Import Py Re P1listener Fixtures DecoderFacts.

(** C8. From Idle, the four lines [/ISK5\2M550T-1013],
    [1-0:1.7.0(00.500*kW)], [1-0:2.7.0(00.100*kW)], [!1234] make the
    decoder send exactly one datagram: its telegram has the header
    [/ISK5\2M550T-1013], the integer 500 under [1-0:1.7.0], the integer 100
    under [1-0:2.7.0], the string [1234] as checksum, and nothing else.
    This holds for every clock whose readings at the first and the last
    line are [ms] whole milliseconds apart. *)
Theorem four_lines_one_telegram t0 t1 t2 t3 ms :
  F64.trunc (F64.mul (F64.of_Z 1000) (F64.sub t3 t0)) = Some ms ->
  exists d,
    run (telegram_lines t0 t1 t2 t3) Idle =
      Ok ([d], {| data := empty_datagram; first_line_read := false;
                  datagram_counter := 1 |}) /\
    telegram d !! "header" = Some (VStr "/ISK5\2M550T-1013") /\
    telegram d !! "1-0:1.7.0" = Some (VInt 500) /\
    telegram d !! "1-0:2.7.0" = Some (VInt 100) /\
    telegram d !! "checksum" = Some (VStr "1234") /\
    size (telegram d) = 4%nat /\
    meta d !! "frame-number" = Some (VInt 1) /\
    meta d !! "frame-start-time" = Some (VFloat t0) /\
    meta d !! "frame-end-time" = Some (VFloat t3) /\
    meta d !! "frame-time-duration" = Some (VInt ms).
Proof.
  intros H. unfold telegram_lines. cbn [run].
  set (s1 := {| data := {| meta := <["frame-number" := VInt 1]>
                                     (<["frame-start-time" := VFloat t0]> ∅);
                           telegram := <["header" := VStr "/ISK5\2M550T-1013"]> ∅ |};
                first_line_read := true; datagram_counter := 1 |}).
  assert (step t0 "/ISK5\2M550T-1013" Idle =
          Ok {| next := s1; sent := None; logged := [First_line_found] |}) as ->
    by reflexivity.
  cbn [mbind outcome_bind next sent].
  set (s2 := set_telegram s1 (<["1-0:1.7.0" := VInt 500]> (telegram (data s1)))).
  assert (step t1 "1-0:1.7.0(00.500*kW)" s1 =
          Ok {| next := s2; sent := None;
                logged := [Original_value "00.500*kW"; Converted_to (VInt 500);
                           Found_1_value_match "1-0:1.7.0" (VInt 500)] |}) as ->
    by (vm_compute; reflexivity).
  cbn [mbind outcome_bind next sent].
  set (s3 := set_telegram s2 (<["1-0:2.7.0" := VInt 100]> (telegram (data s2)))).
  assert (step t2 "1-0:2.7.0(00.100*kW)" s2 =
          Ok {| next := s3; sent := None;
                logged := [Original_value "00.100*kW"; Converted_to (VInt 100);
                           Found_1_value_match "1-0:2.7.0" (VInt 100)] |}) as ->
    by (vm_compute; reflexivity).
  cbn [mbind outcome_bind next sent].
  rewrite (step_frame_end t3 "!1234" s3 t0 ms) by (done || reflexivity).
  cbn [mbind outcome_bind next sent run].
  eexists. split; [reflexivity|].
  repeat split; reflexivity.
Qed.

Lemma four_lines_one_telegram_witness :
  exists d,
    run (telegram_lines clock clock clock clock_later) Idle =
      Ok ([d], {| data := empty_datagram; first_line_read := false;
                  datagram_counter := 1 |}) /\
    telegram d !! "header" = Some (VStr "/ISK5\2M550T-1013") /\
    telegram d !! "1-0:1.7.0" = Some (VInt 500) /\
    telegram d !! "1-0:2.7.0" = Some (VInt 100) /\
    telegram d !! "checksum" = Some (VStr "1234") /\
    size (telegram d) = 4%nat /\
    meta d !! "frame-number" = Some (VInt 1) /\
    meta d !! "frame-start-time" = Some (VFloat clock) /\
    meta d !! "frame-end-time" = Some (VFloat clock_later) /\
    meta d !! "frame-time-duration" = Some (VInt 500).
Proof.
  apply (four_lines_one_telegram clock clock clock clock_later 500).
  vm_compute. reflexivity.
Defined.


(** A header line that carries a field: the pattern is searched anywhere
    in the line, so the field is stored in the open frame and replaces
    the value buffered under its key. *)
Lemma header_with_a_field_replaces_it :
  telegram (data inside_frame) !! "1-0:1.7.0" = Some (VInt 500) /\
  exists r,
    step clock "/1-0:1.7.0(00.700*kW)" inside_frame = Ok r /\
    sent r = None /\
    telegram (data (next r)) !! "1-0:1.7.0" = Some (VInt 700) /\
    telegram (data (next r)) !! "header" = Some (VStr "/ISK5\2M550T-1013") /\
    logged r = [Original_value "00.700*kW"; Converted_to (VInt 700);
                Found_1_value_match "1-0:1.7.0" (VInt 700)].
Proof.
  split; [vm_compute; reflexivity|].
  eexists. split; [vm_compute; reflexivity|].
  repeat split; reflexivity.
Qed.



End Decoder.

(* ===================================================================== *)
(** ** The aggregation engine *)
(* ===================================================================== *)

Module Engine.
Import Py P1reader Fixtures ReaderLogic ReaderFacts.

Ltac conjuncts := repeat match goal with |- _ /\ _ => split end.

(** *** The rolling buffer *)

(** C1. Ingesting 121 samples into an empty buffer leaves all 121 in it,
    sample 1 included: [len(self.lastten) > 120] is tested before the
    append, so the first eviction happens on the 122nd sample.  From then
    on the buffer holds the last 121 samples, and it never holds more,
    whatever is received. *)
Theorem lastten_after_121_samples :
  let r := read_datagrams ∅ (map nth_sample (seq 1 121)) init in
  let r' := read_datagrams ∅ (map nth_sample (seq 1 122)) init in
  length (lastten (self r)) = 121%nat /\
  lastten (self r) = map nth_row (seq 1 121) /\
  length (lastten (self r')) = 121%nat /\
  lastten (self r') = map nth_row (seq 2 121) /\
  (forall CONFIG parsed from s,
     (length (lastten s) <= 121)%nat ->
     (length (lastten (self (read_datagram CONFIG parsed from s))) <= 121)%nat).
Proof.
  intros r r'.
  split; [vm_compute; reflexivity|].
  split; [vm_compute; reflexivity|].
  split; [vm_compute; reflexivity|].
  split; [vm_compute; reflexivity|].
  intros CONFIG parsed from s. apply lastten_bound.
Qed.

Lemma lastten_after_121_samples_witness :
  (length (lastten (self (read_datagram ∅ (Some (payload 1 1 1 0)) meter init))) <= 121)%nat.
Proof.
  apply (proj2 (proj2 (proj2 (proj2 lastten_after_121_samples)))).
  cbn. lia.
Defined.

(** *** A payload that does not parse *)

(** C2. When [json.loads] raises, the [except] clause of [read_datagram]
    formats its log record with the name [now], which is bound neither in
    the method nor in the module: the call raises [NameError] before
    anything is logged, and the loop of [main], which handles
    [KeyboardInterrupt] only, ends there, whatever datagrams follow. *)
Theorem unparsable_payload_raises CONFIG from rest s :
  bound "now" = false /\
  read_datagram CONFIG None from s =
    {| self := s; effects := []; result := Raise NameError |} /\
  read_datagrams CONFIG ((None, from) :: rest) s =
    {| self := s; effects := []; result := Raise NameError |}.
Proof. repeat split. Qed.

(** *** The time of an interval row *)

(** C4. [print_csv] hands [epoch_time / 300 * 300] to [time.localtime];
    [/] is the true division, so the product is the time of the sample
    again, up to rounding: the three windows closed by telegrams at 301,
    601 and 901 seconds are written with these very times, not with 300,
    600 and 900, and a window closed at 313 seconds is written as 312. *)
Theorem interval_row_time_not_floored :
  let s := self (read_datagrams ∅ late_inbox init) in
  let s' := self (read_datagram ∅ (Some (payload 313 1 10 0)) meter init) in
  map epoch_time (csvdata s) = [301; 601; 901] /\
  map row_time (interval_rows (effects (print_csv s))) = [301; 601; 901] /\
  map (fun t => 300 * (t / 300)) [301; 601; 901] = [300; 600; 900] /\
  map epoch_time (csvdata s') = [313] /\
  map interval_row_time (csvdata s') = [Ok 312].
Proof.
  intros s s'. conjuncts; (vm_compute; reflexivity).
Qed.

(** *** A missing field *)




(** The call of the witness does return, with 0 in the buffer. *)
Lemma import_only_is_ingested :
  let r := read_datagram ∅ (Some (import_only 1 1 5)) meter init in
  result r = Ok (Some (<["1-0:2.7.0" := VInt 0]> (import_only_telegram 5))) /\
  lastten (self r) = [(1, VInt 5, VInt 0)] /\
  csvlevering (self r) = [VInt 0].
Proof. intros r. conjuncts; (vm_compute; reflexivity). Qed.

(** *** The periodic batch *)



(** The average is not truncated when it is computed: 10 and 15 average
    to 12.5.  ([%4d] prints it as 12.) *)
Lemma average_is_a_true_division :
  (sI ← stats_loop [VInt 10; VInt 15] stats0; average sI) = Ok (VFloat twelve_and_a_half) /\
  fmt_d (VFloat twelve_and_a_half) = Ok 12.
Proof. split; (vm_compute; reflexivity). Qed.

(** An entry without samples would divide by zero. *)
Lemma empty_batch_divides_by_zero :
  interval_row {| epoch_time := 300; power_watt := VInt 0; csvverbruiklist := [];
                  power_watt_levering := VInt 0; csvleveringlist := [] |}
  = Raise ZeroDivisionError.
Proof. reflexivity. Qed.

(** C10. Every entry that [read_datagram] appends to [csvdata] has a
    non-empty list of samples in and a non-empty list of samples out,
    whatever the state and the datagram; [print_csv] leaves only such
    entries; for such an entry the two loops of [print_csv] count at
    least one sample each, and neither average, nor the row, nor
    [print_csv] as a whole raises [ZeroDivisionError]. *)
Theorem batches_are_never_empty :
  Forall nonempty_batch (csvdata init) /\
  (forall CONFIG parsed from s,
     exists new,
       csvdata (self (read_datagram CONFIG parsed from s)) = csvdata s ++ new /\
       Forall nonempty_batch new) /\
  (forall s, Forall nonempty_batch (csvdata s) ->
     Forall nonempty_batch (csvdata (self (print_csv s)))) /\
  (forall entry sI sO,
     nonempty_batch entry ->
     stats_loop (csvverbruiklist entry) stats0 = Ok sI ->
     stats_loop (csvleveringlist entry) stats0 = Ok sO ->
     1 <= N sI /\ 1 <= N sO /\
     average sI <> Raise ZeroDivisionError /\
     average sO <> Raise ZeroDivisionError) /\
  (forall entry, nonempty_batch entry ->
     interval_row entry <> Raise ZeroDivisionError) /\
  (forall s, Forall nonempty_batch (csvdata s) ->
     result (print_csv s) <> Raise ZeroDivisionError).
Proof.
  split; [constructor|].
  split; [intros; apply read_datagram_appended|].
  split; [apply print_csv_keeps|].
  split.
  { intros entry sI sO [HI HO] EI EO.
    apply stats_loop_count in EI; [|done]. apply stats_loop_count in EO; [|done].
    repeat split; try done; apply py_truediv_no_zde; lia. }
  split; [apply interval_row_no_zde|apply print_csv_no_zde].
Qed.

Lemma batches_are_never_empty_witness :
  result (print_csv (set_csvdata [closed_window; closed_window; closed_window] init))
  <> Raise ZeroDivisionError.
Proof.
  apply (proj2 (proj2 (proj2 (proj2 (proj2 batches_are_never_empty))))).
  repeat constructor; discriminate.
Defined.

(** *** Sequence tracking *)

(** C7. Telegrams with the frame numbers 1, 2, 4 from one sender, into a
    fresh engine: the first two are ingested without a warning about
    missed telegrams, the third with exactly one; all three calls return
    their telegram, and the number expected next is 5.  A telegram
    numbered 9 from another sender then raises no such warning: the
    change of sender is logged, the other sender is on record and 10 is
    expected; a telegram numbered 5 from the first sender after that is
    again a change of sender, without a warning.  And whenever the sender
    differs from the one on record, a telegram with an integer frame
    number raises no such warning, whatever number was expected; the
    change is logged first, and however the call ends the new sender is
    on record and the number expected next is the telegram's plus one. *)
Theorem one_gap_for_1_2_4 :
  let r1 := read_datagram ∅ (Some (payload 1 1 10 0)) meter init in
  let r2 := read_datagram ∅ (Some (payload 2 2 10 0)) meter (self r1) in
  let r3 := read_datagram ∅ (Some (payload 3 4 10 0)) meter (self r2) in
  let r4 := read_datagram ∅ (Some (payload 4 9 10 0)) other_meter (self r3) in
  let r5 := read_datagram ∅ (Some (payload 5 5 10 0)) meter (self r4) in
  (effects r1 = [Info_sender_restarted meter] /\
   effects r2 = [] /\
   effects r3 = [Warning_missed (VInt (-1))] /\
   result r1 = Ok (Some (telegram_of 10 0)) /\
   result r2 = Ok (Some (telegram_of 10 0)) /\
   result r3 = Ok (Some (telegram_of 10 0)) /\
   telegram_framenumber (self r2) = VInt 3 /\
   telegram_framenumber (self r3) = VInt 5 /\
   who (self r3) = Some meter /\
   lastten (self r3) = [(1, VInt 10, VInt 0); (2, VInt 10, VInt 0); (3, VInt 10, VInt 0)] /\
   effects r4 = [Info_sender_restarted other_meter] /\
   result r4 = Ok (Some (telegram_of 10 0)) /\
   who (self r4) = Some other_meter /\
   telegram_framenumber (self r4) = VInt 10 /\
   effects r5 = [Info_sender_restarted meter] /\
   who (self r5) = Some meter /\
   telegram_framenumber (self r5) = VInt 6) /\
  (forall CONFIG data meta_info n from s,
     data !! "meta" = Some meta_info ->
     meta_info !! "frame-number" = Some (VInt n) ->
     who s <> Some from ->
     Forall no_gap (effects (read_datagram CONFIG (Some data) from s))) /\
  (forall CONFIG data meta_info telegram n from s,
     data !! "meta" = Some meta_info ->
     data !! "telegram" = Some telegram ->
     meta_info !! "frame-number" = Some (VInt n) ->
     who s <> Some from ->
     let r := read_datagram CONFIG (Some data) from s in
     (exists rest, effects r = Info_sender_restarted from :: rest) /\
     who (self r) = Some from /\
     telegram_framenumber (self r) = VInt (n + 1)).
Proof.
  intros r1 r2 r3 r4 r5. split; [|split].
  - conjuncts; (vm_compute; reflexivity).
  - apply new_sender_no_gap.
  - apply new_sender_resets.
Qed.

(** A telegram numbered 9 from another sender, when 3 is expected. *)
Lemma one_gap_for_1_2_4_witness :
  let r := read_datagram ∅ (Some (payload 3 9 10 0)) other_meter Scenes.following in
  Forall no_gap (effects r) /\
  (exists rest, effects r = Info_sender_restarted other_meter :: rest) /\
  who (self r) = Some other_meter /\
  telegram_framenumber (self r) = VInt (9 + 1).
Proof.
  split.
  - apply (proj1 (proj2 one_gap_for_1_2_4) ∅ (payload 3 9 10 0) (meta_of 3 9) 9
             other_meter Scenes.following).
    + reflexivity.
    + reflexivity.
    + cbn. unfold meter, other_meter. intros [=].
  - apply (proj2 (proj2 one_gap_for_1_2_4) ∅ (payload 3 9 10 0) (meta_of 3 9)
             (telegram_of 10 0) 9 other_meter Scenes.following).
    + reflexivity.
    + reflexivity.
    + reflexivity.
    + cbn. unfold meter, other_meter. intros [=].
Defined.

(** *** Grouping the buffer for the grid *)

Lemma sorted_rows_fold rows : forall sorted temp first,
  let out := fold_left sorted_rows_step rows (sorted, temp, first) in
  (temp ++ rows <> [] -> out.1.2 <> []) /\
  concat out.1.1 ++ out.1.2 = concat sorted ++ temp ++ rows.
Proof.
  induction rows as [|row rows IH]; intros sorted temp first; cbn [fold_left].
  - cbn. by rewrite app_nil_r.
  - destruct (sorted_rows_step (sorted, temp, first) row) as [[sorted' temp'] first'] eqn:E.
    unfold sorted_rows_step in E.
    destruct (IH sorted' temp' first') as [H1 H2]. cbn zeta in *.
    destruct (_ =? _); injection E as <- <- <-.
    + split; [intros _; apply H1; by destruct temp|].
      rewrite H2. by rewrite <- app_assoc.
    + split; [intros _; by apply H1|].
      rewrite H2, concat_app. cbn. by rewrite app_nil_r, <- app_assoc.
Qed.

(** What [sorted_rows] returns is always short of the last run: the rows
    are the returned runs followed by at least one more row. *)
Lemma sorted_rows_drops_last_run rows :
  rows <> [] ->
  exists runs last,
    sorted_rows rows = Some runs /\ last <> [] /\ concat runs ++ last = rows.
Proof.
  intros Hrows. destruct rows as [|row0 rest]; [done|]. clear Hrows.
  unfold sorted_rows.
  destruct (sorted_rows_fold (row0 :: rest) [] [] row0.1.1) as [H1 H2].
  eexists _, _. split; [reflexivity|]. split; [by apply H1|exact H2].
Qed.

(** C9. [sorted_rows] never appends the run it is collecting when the
    loop ends.  Of 25 rows taken at the seconds 0 to 24 it returns the
    runs of the seconds 0-9 and 10-19, which hold the first 20 rows only:
    the rows of the seconds 20-24 are in no returned run.  Of two rows
    taken in the same ten seconds it returns no run at all. *)
Theorem sorted_rows_loses_rows :
  sorted_rows rows25 = Some [map nth_row (seq 0 10); map nth_row (seq 10 10)] /\
  rows25 = concat [map nth_row (seq 0 10); map nth_row (seq 10 10)] ++
           map nth_row (seq 20 5) /\
  sorted_rows [nth_row 0; nth_row 1] = Some [].
Proof. conjuncts; (vm_compute; reflexivity). Qed.

End Engine.

(* ===================================================================== *)
(** ** The decoder loop as a whole *)
(* ===================================================================== *)

Module DecoderLogic.
Import Py Re P1listener Invariants Samples Fixtures Scenes DecoderFacts.

Lemma contains_star sub s :
  contains (String "*" sub) s = true -> contains "*" s = true.
Proof.
  induction s as [|a s IH]; cbn [contains startswith]; [done|].
  destruct (Ascii.eqb "*" a); cbn; [done|]. exact IH.
Qed.

Lemma code_points_skip s : code_points (skip_continuation s) = code_points s.
Proof.
  induction s as [|c s IH]; [done|]. cbn [skip_continuation code_points].
  destruct (is_continuation c) eqn:E; [exact IH|].
  cbn [code_points]. by rewrite E.
Qed.

Lemma frame_end_tail line :
  startswith "!" line && (len line =? 5) = true -> len (tail line) = 4.
Proof.
  destruct line as [|a l]; [done|]. unfold len. cbn [tail startswith].
  intros [Ha%andb_true_iff H%Z.eqb_eq]%andb_true_iff.
  destruct Ha as [<-%Ascii.eqb_eq _]. rewrite code_points_skip.
  change (code_points (String "!" l)) with (S (code_points l)) in H. lia.
Qed.

Lemma step_consistent now line st r :
  consistent st ->
  step now line st = Ok r ->
  consistent (next r) /\
  match sent r with
  | None => completed (next r) = completed st
  | Some d =>
      completed (next r) = completed st + 1 /\
      frame_number d = Some (VInt (completed st + 1)) /\
      complete d
  end.
Proof.
  unfold consistent, completed, step. intros Hst.
  destruct (first_line_read st) eqn:Hin; cbn [negb andb].
  - destruct Hst as (Hn & [t Ht] & h & Hh & Hslash).
    destruct (startswith "!" line && (len line =? 5)) eqn:Hend.
    + unfold getitem. rewrite lookup_insert_eq, lookup_insert_ne, Ht by done.
      cbn [mbind outcome_bind].
      destruct (py_sub _ _) as [diff|]; cbn [mbind outcome_bind]; [|done].
      destruct (py_mul _ _) as [ms|]; cbn [mbind outcome_bind]; [|done].
      destruct (py_int ms) as [duration|]; cbn [mbind outcome_bind]; [|done].
      intros [= <-]. cbn. split; [done|]. split; [lia|].
      unfold frame_number, complete. cbn.
      rewrite !lookup_insert_eq.
      rewrite !(lookup_insert_ne _ "frame-time-duration") by done.
      rewrite !lookup_insert_eq.
      rewrite !(lookup_insert_ne _ "frame-end-time") by done.
      rewrite (lookup_insert_ne _ "checksum") by done.
      rewrite Hn, Ht, Hh.
      split; [do 2 f_equal; lia|].
      repeat split; eauto using frame_end_tail.
    + destruct (search P1_ONE_VALUE_RGX line) as [m1|] eqn:E1.
      { destruct (parse_p1_value _) as [v|]; cbn [mbind outcome_bind]; [|done].
        intros [= <-]. cbn. rewrite Hin. split; [|done].
        split; [done|]. split; [eauto|]. exists h.
        rewrite lookup_insert_ne; [done|]. by eapply one_value_key. }
      destruct (search P1_TWO_VALUES_RGX line) as [m2|] eqn:E2.
      { destruct (parse_p1_value (group "value1" m2)) as [v1|]; cbn [mbind outcome_bind]; [|done].
        destruct (parse_p1_value (group "value2" m2)) as [v2|]; cbn [mbind outcome_bind]; [|done].
        intros [= <-]. cbn. rewrite Hin. split; [|done].
        split; [done|]. split; [eauto|]. exists h.
        rewrite !lookup_insert_ne; [done| |]; by eapply two_values_key. }
      intros [= <-]. cbn. rewrite Hin. eauto 10.
  - destruct (startswith "/" line) eqn:Hslash.
    + intros [= <-]. cbn. rewrite Hst. cbn.
      rewrite lookup_insert_eq, lookup_insert_ne, !lookup_insert_eq by done.
      split; [eauto 10|lia].
    + intros [= <-]. cbn. rewrite Hin. done.
Qed.

Lemma run_consistent lines : forall st out st',
  consistent st ->
  run lines st = Ok (out, st') ->
  consistent st' /\
  completed st' = completed st + Z.of_nat (length out) /\
  Forall complete out /\
  map frame_number out = numbered (completed st) (length out).
Proof.
  induction lines as [|[now line] rest IH]; intros st out st' Hst; cbn [run].
  - intros [= <- <-]. cbn. split; [done|]. split; [lia|]. by split.
  - destruct (step now line st) as [r|] eqn:Hstep; cbn [mbind outcome_bind]; [|done].
    destruct (run rest (next r)) as [[out' st'']|] eqn:Hrun; cbn [mbind outcome_bind]; [|done].
    intros [= <- <-].
    destruct (step_consistent _ _ _ _ Hst Hstep) as [Hnext Hsent].
    destruct (IH _ _ _ Hnext Hrun) as (H1 & H2 & H3 & H4).
    split; [done|].
    destruct (sent r) as [d|].
    + destruct Hsent as (Hc & Hd & Hcomplete). cbn [length map].
      split; [lia|]. split; [by constructor|].
      unfold numbered in *. cbn [seq map]. rewrite Hd, H4, Hc.
      rewrite <- (seq_shift (length out') 1), map_map.
      apply (f_equal2 cons); [reflexivity|].
      apply map_ext. intros i. do 2 f_equal. lia.
    + rewrite Hsent in *. done.
Qed.

Lemma consistent_Idle : consistent Idle.
Proof. reflexivity. Qed.

Lemma kw_low_sound ns : forall low n,
  kw_low ns = Some low -> In n ns ->
  kw_read n = Some n \/ kw_read n = Some (n - 1).
Proof.
  induction ns as [|m ns IH]; intros low n; cbn [kw_low In]; [done|].
  destruct (kw_read m) as [z|] eqn:E; [|done].
  destruct (Z.eqb_spec z m) as [->|_].
  - intros H [<-|Hin]; [by left|by eapply IH].
  - destruct (Z.eqb_spec z (m - 1)) as [->|_]; [|done].
    destruct (kw_low ns) as [low'|] eqn:E'; [|done].
    intros _ [<-|Hin]; [by right|by eapply IH].
Qed.

Lemma readings_In n k : 0 <= k < Z.of_nat n -> In k (readings n).
Proof.
  intros H. unfold readings. apply in_map_iff. exists (Z.to_nat k).
  split; [lia|]. apply in_seq. lia.
Qed.

Lemma kw_low_10000 : exists low, kw_low (readings (100 * 100)) = Some low.
Proof. eexists. vm_compute. reflexivity. Qed.

End DecoderLogic.

Module DecoderRules.
Import Py Re P1listener Invariants Samples Fixtures Scenes DecoderFacts DecoderLogic.

(** X1. The datagrams that the decoder sends carry the frame numbers
    1, 2, 3, ... in the order sent, and the sequence counter equals the
    number of frames sent plus the frame that is open, if any. *)
Theorem frames_are_numbered_from_one lines out st :
  run lines Idle = Ok (out, st) ->
  map frame_number out = numbered 0 (length out) /\
  completed st = Z.of_nat (length out).
Proof.
  intros H.
  destruct (run_consistent lines Idle out st consistent_Idle H) as (_ & H2 & _ & H4).
  split; [exact H4|]. rewrite H2. reflexivity.
Qed.

Lemma frames_are_numbered_from_one_witness :
  map frame_number [frame_sent 1 clock clock_later 500; frame_sent 2 clock_later clock_later 0] =
    numbered 0 2 /\
  completed (idle_after 2) = 2.
Proof.
  apply (frames_are_numbered_from_one two_frames
           [frame_sent 1 clock clock_later 500; frame_sent 2 clock_later clock_later 0]
           (idle_after 2)).
  vm_compute. reflexivity.
Defined.

(** X2. Every datagram that the decoder sends has the header line of its
    frame (a line that begins with [/]), the four characters after [!]
    as checksum, an integer frame number, the start and the end time and
    an integer duration. *)
Theorem every_datagram_is_complete lines out st :
  run lines Idle = Ok (out, st) -> Forall complete out.
Proof.
  intros H.
  by destruct (run_consistent lines Idle out st consistent_Idle H) as (_ & _ & H3 & _).
Qed.

Lemma every_datagram_is_complete_witness :
  Forall complete [frame_sent 1 clock clock_later 500; frame_sent 2 clock_later clock_later 0].
Proof.
  apply (every_datagram_is_complete two_frames
           [frame_sent 1 clock clock_later 500; frame_sent 2 clock_later clock_later 0]
           (idle_after 2)).
  vm_compute. reflexivity.
Defined.

(** X3. Outside a frame, lines that do not begin with [/] are dropped,
    also a line that looks like a field or like the end of a frame:
    nothing is sent, nothing is buffered and the counter does not move. *)
Theorem lines_outside_a_frame_are_dropped lines st :
  first_line_read st = false ->
  Forall (fun l => startswith "/" l.2 = false) lines ->
  run lines st = Ok ([], st).
Proof.
  intros Hst H. induction H as [|[now line] rest Hl _ IH]; [done|].
  cbn [run]. unfold step. cbn [snd] in Hl. rewrite Hst, Hl. cbn [negb andb].
  cbn [mbind outcome_bind next sent]. rewrite IH. done.
Qed.

Lemma lines_outside_a_frame_are_dropped_witness :
  run tail_of_a_frame (idle_after 7) = Ok ([], idle_after 7).
Proof.
  apply (lines_outside_a_frame_are_dropped tail_of_a_frame (idle_after 7)).
  - reflexivity.
  - repeat constructor.
Defined.

(** A line of five characters of which one takes two bytes ends the
    frame, and the checksum is the four characters after [!]. *)
Lemma five_characters_end_the_frame :
  exists r d,
    step clock_later "!12é4" inside_frame = Ok r /\
    sent r = Some d /\
    telegram d !! "checksum" = Some (VStr "12é4") /\
    first_line_read (next r) = false.
Proof.
  eexists _, _. split; [vm_compute; reflexivity|].
  repeat split; reflexivity.
Qed.



(** X5. A value without [*] is stored as the string it is: no unit, no
    conversion, and no error. *)
Theorem value_without_unit_is_text value :
  contains "*" value = false -> parse_p1_value value = Ok (VStr value).
Proof.
  intros H. unfold parse_p1_value.
  repeat match goal with
  | |- context [contains (String "*" ?sub) value] =>
      destruct (contains (String "*" sub) value) eqn:E;
      [apply contains_star in E; congruence|clear E]
  end.
  reflexivity.
Qed.

Lemma value_without_unit_is_text_witness :
  parse_p1_value "210608130046S" = Ok (VStr "210608130046S").
Proof. apply (value_without_unit_is_text "210608130046S"). reflexivity. Defined.

(** X6. A power reading of [n] watts below ten kilowatts, printed as
    [dd.ddd*kW], is read as [n] or as [n - 1] watts: the product of 1000
    and the float is truncated, not rounded. *)
Theorem kw_reading_is_at_most_a_watt_low n :
  0 <= n < 10000 ->
  kw_read n = Some n \/ kw_read n = Some (n - 1).
Proof.
  intros H. destruct kw_low_10000 as [low Hlow].
  apply (kw_low_sound _ _ _ Hlow). apply readings_In. lia.
Qed.

Lemma kw_reading_is_at_most_a_watt_low_witness :
  kw_read 1001 = Some 1001 \/ kw_read 1001 = Some (1001 - 1).
Proof. apply (kw_reading_is_at_most_a_watt_low 1001). lia. Defined.

End DecoderRules.

(* ===================================================================== *)
(** ** The rules of ingest *)
(* ===================================================================== *)

Module IngestFacts.
Import Py P1reader Exporters ReaderLogic ReaderFacts.

(** A sequence that returns: its first call returned, and the rest ran
    from the state the first call left. *)
Lemma bind_Ok {A B} (c : M A) (k : A -> M B) s b :
  result ((c ≫= k) s) = Ok b ->
  exists a, result (c s) = Ok a /\
            result (k a (self (c s))) = Ok b /\
            self ((c ≫= k) s) = self (k a (self (c s))).
Proof.
  rewrite run_bind. destruct (result (c s)) as [a|e]; cbn; [eauto|done].
Qed.

Lemma getitem_Ok {A} (d : gmap string A) k v : getitem d k = Ok v -> d !! k = Some v.
Proof. unfold getitem. destruct (d !! k); [by intros [= ->]|done]. Qed.

Lemma lift_Ok {A} (o : outcome A) s a : result (lift o s) = Ok a -> o = Ok a.
Proof. done. Qed.

(** The stages of a call of [read_datagram] that returns. *)
Lemma read_datagram_stages CONFIG data from s r :
  result (read_datagram CONFIG (Some data) from s) = Ok r ->
  exists meta_info telegram start t s1 s2 s3,
    data !! "meta" = Some meta_info /\
    data !! "telegram" = Some telegram /\
    meta_info !! "frame-start-time" = Some start /\
    py_int start = Ok t /\
    result (track_sender meta_info from s) = Ok tt /\
    s1 = self (track_sender meta_info from s) /\
    result (weekly_sample CONFIG t (with_power_out telegram) s1) = Ok tt /\
    s2 = self (weekly_sample CONFIG t (with_power_out telegram) s1) /\
    result (rolling_buffer t (with_power_out telegram) s2) = Ok tt /\
    s3 = self (rolling_buffer t (with_power_out telegram) s2) /\
    result (periodic_batch t (with_power_out telegram) s3) = Ok tt /\
    self (read_datagram CONFIG (Some data) from s) =
      self (periodic_batch t (with_power_out telegram) s3) /\
    r = Some (with_power_out telegram).
Proof.
  unfold read_datagram.
  destruct (getitem data "meta") as [meta_info|] eqn:Hm; run_M; [|done].
  destruct (getitem data "telegram") as [telegram|] eqn:Ht; run_M; [|done].
  apply getitem_Ok in Hm, Ht.
  intros H. apply bind_Ok in H as ([] & Htrack & H & ->).
  revert H.
  destruct (getitem meta_info "frame-start-time") as [start|] eqn:Hs; run_M; [|done].
  apply getitem_Ok in Hs.
  destruct (py_int start) as [t|] eqn:Hint; run_M; [|done].
  destruct (getitem meta_info "frame-time-duration") as [duration|]; run_M; [|done].
  destruct (py_gt duration (VInt 500)) as [slow|]; run_M; [|done].
  fold (with_power_out telegram).
  destruct slow; run_M.
  all: intros H.
  all: apply bind_Ok in H as ([] & Hweekly & H & ->).
  all: apply bind_Ok in H as ([] & Hrolling & H & ->).
  all: apply bind_Ok in H as ([] & Hbatch & H & ->).
  all: injection H as <-.
  all: eexists _, _, _, _, _, _, _; repeat split; try done.
Qed.


Lemma rolling_buffer_Ok t tg s :
  result (rolling_buffer t tg s) = Ok tt ->
  exists p_in p_out,
    tg !! "1-0:1.7.0" = Some p_in /\ tg !! "1-0:2.7.0" = Some p_out /\
    self (rolling_buffer t tg s) = set_lastten (pushed (lastten s) (t, p_in, p_out)) s.
Proof.
  unfold rolling_buffer, pushed. rewrite run_get.
  destruct (120 <? _);
    (destruct (getitem tg "1-0:1.7.0") as [p_in|] eqn:H1; run_M; [|done]);
    (destruct (getitem tg "1-0:2.7.0") as [p_out|] eqn:H2; run_M; [|done]);
    apply getitem_Ok in H1, H2; eauto.
Qed.

Lemma weekly_sample_Ok CONFIG t tg s :
  result (weekly_sample CONFIG t tg s) = Ok tt ->
  exists period,
    get_config_value CONFIG "weekly_log" "measurement_period" py_int 30 = Ok period /\
    period <> 0 /\
    if t mod period =? 0 then
      exists a b c d e f,
        tg !! "1-0:1.8.1" = Some a /\ tg !! "1-0:1.8.2" = Some b /\
        tg !! "1-0:1.7.0" = Some c /\ tg !! "1-0:2.8.1" = Some d /\
        tg !! "1-0:2.8.2" = Some e /\ tg !! "1-0:2.7.0" = Some f /\
        self (weekly_sample CONFIG t tg s) =
          set_measurements
            (measurements s ++
               [{| m_time := t; m_in_t1 := a; m_in_t2 := b; m_power_in := c;
                   m_out_t1 := d; m_out_t2 := e; m_power_out := f |}]) s
    else self (weekly_sample CONFIG t tg s) = s.
Proof.
  unfold weekly_sample.
  destruct (get_config_value _ _ _ _ _) as [period|]; run_M; [|done].
  destruct (Z.eqb_spec period 0) as [->|Hp]; run_M; [done|].
  intros H. exists period. split; [done|]. split; [done|]. revert H.
  destruct (t mod period =? 0); run_M; [|done].
  destruct (getitem tg "1-0:1.8.1") as [a|] eqn:H1; run_M; [|done].
  destruct (getitem tg "1-0:1.8.2") as [b|] eqn:H2; run_M; [|done].
  destruct (getitem tg "1-0:1.7.0") as [c|] eqn:H3; run_M; [|done].
  destruct (getitem tg "1-0:2.8.1") as [d|] eqn:H4; run_M; [|done].
  destruct (getitem tg "1-0:2.8.2") as [e|] eqn:H5; run_M; [|done].
  destruct (getitem tg "1-0:2.7.0") as [f|] eqn:H6; run_M; [|done].
  apply getitem_Ok in H1, H2, H3, H4, H5, H6. intros _.
  eexists _, _, _, _, _, _. repeat split; done.
Qed.

Lemma periodic_batch_Ok t tg s :
  result (periodic_batch t tg s) = Ok tt ->
  exists p_in p_out,
    tg !! "1-0:1.7.0" = Some p_in /\ tg !! "1-0:2.7.0" = Some p_out /\
    let s' := set_csvlevering (csvlevering s ++ [p_out])
                (set_csvverbruik (csvverbruik s ++ [p_in]) s) in
    if closes t (csvfm s) then
      exists a b c d totalO totalI,
        tg !! "1-0:1.8.1" = Some a /\ tg !! "1-0:1.8.2" = Some b /\
        py_add a b = Ok totalO /\
        tg !! "1-0:2.8.1" = Some c /\ tg !! "1-0:2.8.2" = Some d /\
        py_add c d = Ok totalI /\
        self (periodic_batch t tg s) =
          set_csvlevering [] (set_csvverbruik [] (set_csvfm t
            (set_csvdata
               (csvdata s ++
                  [{| epoch_time := t; power_watt := totalO;
                      csvverbruiklist := csvverbruik s ++ [p_in];
                      power_watt_levering := totalI;
                      csvleveringlist := csvlevering s ++ [p_out] |}]) s')))
    else self (periodic_batch t tg s) = s'.
Proof.
  unfold periodic_batch, closes.
  destruct (getitem tg "1-0:1.7.0") as [p_in|] eqn:H1; run_M; [|done].
  destruct (getitem tg "1-0:2.7.0") as [p_out|] eqn:H2; run_M; [|done].
  apply getitem_Ok in H1, H2.
  cbn [csvfm set_csvlevering set_csvverbruik].
  intros H. exists p_in, p_out. split; [done|]. split; [done|]. cbn zeta. revert H.
  destruct (_ || _); run_M; [|done].
  destruct (getitem tg "1-0:1.8.1") as [a|] eqn:H3; run_M; [|done].
  destruct (getitem tg "1-0:1.8.2") as [b|] eqn:H4; run_M; [|done].
  destruct (py_add a b) as [totalO|] eqn:H5; run_M; [|done].
  destruct (getitem tg "1-0:2.8.1") as [c|] eqn:H6; run_M; [|done].
  destruct (getitem tg "1-0:2.8.2") as [d|] eqn:H7; run_M; [|done].
  destruct (py_add c d) as [totalI|] eqn:H8; run_M; [|done].
  apply getitem_Ok in H3, H4, H6, H7. intros _.
  eexists _, _, _, _, _, _. repeat split; done.
Qed.

(** The power out of the telegram as ingested. *)
Lemma with_power_out_lookup telegram :
  with_power_out telegram !! "1-0:2.7.0" =
  Some (default (VInt 0) (telegram !! "1-0:2.7.0")).
Proof.
  unfold with_power_out. destruct (telegram !! "1-0:2.7.0") eqn:E; cbn.
  - done.
  - by rewrite lookup_insert_eq.
Qed.

Lemma with_power_out_other telegram k :
  k <> "1-0:2.7.0" -> with_power_out telegram !! k = telegram !! k.
Proof.
  intros Hk. unfold with_power_out. destruct (telegram !! "1-0:2.7.0"); [done|].
  by rewrite lookup_insert_ne.
Qed.

Section Unchanged.
Context {X : Type} (f : SlimmeMeter -> X).

Lemma track_sender_keeps meta_info from s :
  (forall v s, f (set_who v s) = f s) ->
  (forall v s, f (set_telegram_framenumber v s) = f s) ->
  f (self (track_sender meta_info from s)) = f s.
Proof.
  intros H1 H2.
  apply (track_sender_stable (fun s' => f s' = f s)); [| |done]; intros; congruence.
Qed.

Lemma weekly_sample_keeps CONFIG t tg s :
  (forall v s, f (set_measurements v s) = f s) ->
  f (self (weekly_sample CONFIG t tg s)) = f s.
Proof.
  intros H1.
  apply (weekly_sample_stable CONFIG (fun s' => f s' = f s)); [|done]; intros; congruence.
Qed.

Lemma rolling_buffer_keeps t tg s :
  (forall v s, f (set_lastten v s) = f s) ->
  f (self (rolling_buffer t tg s)) = f s.
Proof.
  intros H1.
  apply (rolling_buffer_stable (fun s' => f s' = f s)); [|done]; intros; congruence.
Qed.

Lemma periodic_batch_keeps t tg s :
  (forall v s, f (set_csvverbruik v s) = f s) ->
  (forall v s, f (set_csvlevering v s) = f s) ->
  (forall v s, f (set_csvdata v s) = f s) ->
  (forall v s, f (set_csvfm v s) = f s) ->
  f (self (periodic_batch t tg s)) = f s.
Proof.
  intros H1 H2 H3 H4.
  apply (periodic_batch_stable (fun s' => f s' = f s)); [| | | |done]; intros; congruence.
Qed.

End Unchanged.

Lemma gaps_nil es : Forall no_gap es -> gaps es = [].
Proof.
  unfold gaps. induction 1 as [|e es He _ IH]; [done|]. cbn.
  destruct e; try done. by destruct (He delta).
Qed.

End IngestFacts.

Module EngineRules.
Import Py P1reader Exporters ReaderLogic ReaderFacts IngestFacts Fixtures Scenes.

(** X7. A call of [read_datagram] that returns has put one row in
    [lastten]: the whole seconds of the frame's start time, the power in
    and the power out of the telegram, 0 when the telegram has no power
    out.  The row goes to the end, and the oldest row is dropped first
    when the buffer held more than 120 rows. *)
Theorem ingest_pushes_the_row CONFIG data meta_info telegram start t from s r :
  data !! "meta" = Some meta_info ->
  data !! "telegram" = Some telegram ->
  meta_info !! "frame-start-time" = Some start ->
  py_int start = Ok t ->
  result (read_datagram CONFIG (Some data) from s) = Ok r ->
  exists p_in,
    telegram !! "1-0:1.7.0" = Some p_in /\
    lastten (self (read_datagram CONFIG (Some data) from s)) =
      pushed (lastten s) (t, p_in, default (VInt 0) (telegram !! "1-0:2.7.0")).
Proof.
  intros Hm Ht Hs Hint H.
  apply read_datagram_stages in H
    as (? & ? & ? & t' & s1 & s2 & s3 & Hm' & Ht' & Hs' & Hint' & _ & -> & _ & -> &
        Hroll & -> & _ & -> & _).
  simplify_eq. assert (t' = t) as -> by congruence.
  apply rolling_buffer_Ok in Hroll as (p_in & p_out & H1 & H2 & Hself).
  rewrite with_power_out_lookup in H2. rewrite with_power_out_other in H1 by done.
  simplify_eq. exists p_in. split; [done|].
  rewrite (periodic_batch_keeps lastten) by done. rewrite Hself. cbn.
  rewrite (weekly_sample_keeps lastten), (track_sender_keeps lastten) by done.
  done.
Qed.

Lemma ingest_pushes_the_row_witness :
  exists p_in,
    telegram_of 20 0 !! "1-0:1.7.0" = Some p_in /\
    lastten (self (read_datagram ∅ (Some (payload 300 6 20 0)) meter
                     (set_lastten rows25 init))) =
      pushed (lastten (set_lastten rows25 init))
        (300, p_in, default (VInt 0) (telegram_of 20 0 !! "1-0:2.7.0")).
Proof.
  apply (ingest_pushes_the_row ∅ (payload 300 6 20 0) (meta_of 300 6) (telegram_of 20 0)
           (VFloat (F64.of_Z 300)) 300 meter (set_lastten rows25 init)
           (Some (telegram_of 20 0)));
    vm_compute; reflexivity.
Defined.

(** X8. A call of [read_datagram] that returns has appended a measurement
    exactly when the whole seconds of the frame's start time are a
    multiple of the configured measurement period (30 by default): the
    time, the two registers in, the power in, the two registers out and
    the power out, in this order.  Otherwise [measurements] is as
    before. *)
Theorem weekly_sample_on_the_period CONFIG data meta_info telegram start t from s r :
  data !! "meta" = Some meta_info ->
  data !! "telegram" = Some telegram ->
  meta_info !! "frame-start-time" = Some start ->
  py_int start = Ok t ->
  result (read_datagram CONFIG (Some data) from s) = Ok r ->
  exists period,
    get_config_value CONFIG "weekly_log" "measurement_period" py_int 30 = Ok period /\
    period <> 0 /\
    if t mod period =? 0 then
      exists a b c d e,
        telegram !! "1-0:1.8.1" = Some a /\ telegram !! "1-0:1.8.2" = Some b /\
        telegram !! "1-0:1.7.0" = Some c /\ telegram !! "1-0:2.8.1" = Some d /\
        telegram !! "1-0:2.8.2" = Some e /\
        measurements (self (read_datagram CONFIG (Some data) from s)) =
          measurements s ++
            [{| m_time := t; m_in_t1 := a; m_in_t2 := b; m_power_in := c;
                m_out_t1 := d; m_out_t2 := e;
                m_power_out := default (VInt 0) (telegram !! "1-0:2.7.0") |}]
    else measurements (self (read_datagram CONFIG (Some data) from s)) = measurements s.
Proof.
  intros Hm Ht Hs Hint H.
  apply read_datagram_stages in H
    as (? & ? & ? & t' & s1 & s2 & s3 & Hm' & Ht' & Hs' & Hint' & _ & -> & Hweek & -> &
        _ & -> & _ & -> & _).
  simplify_eq. assert (t' = t) as -> by congruence.
  rewrite (periodic_batch_keeps measurements), (rolling_buffer_keeps measurements) by done.
  apply weekly_sample_Ok in Hweek as (period & Hp & Hp0 & Hrule).
  exists period. split; [done|]. split; [done|].
  destruct (t mod period =? 0).
  - destruct Hrule as (a & b & c & d & e & f & H1 & H2 & H3 & H4 & H5 & H6 & ->).
    rewrite with_power_out_lookup in H6.
    rewrite with_power_out_other in H1, H2, H3, H4, H5 by done.
    simplify_eq. exists a, b, c, d, e. repeat split; try done.
    cbn. by rewrite (track_sender_keeps measurements).
  - rewrite Hrule. by rewrite (track_sender_keeps measurements).
Qed.

Lemma weekly_sample_on_the_period_witness :
  exists period,
    get_config_value ∅ "weekly_log" "measurement_period" py_int 30 = Ok period /\
    period <> 0 /\
    if 300 mod period =? 0 then
      exists a b c d e,
        telegram_of 20 0 !! "1-0:1.8.1" = Some a /\ telegram_of 20 0 !! "1-0:1.8.2" = Some b /\
        telegram_of 20 0 !! "1-0:1.7.0" = Some c /\ telegram_of 20 0 !! "1-0:2.8.1" = Some d /\
        telegram_of 20 0 !! "1-0:2.8.2" = Some e /\
        measurements (self (read_datagram ∅ (Some (payload 300 6 20 0)) meter init)) =
          measurements init ++
            [{| m_time := 300; m_in_t1 := a; m_in_t2 := b; m_power_in := c;
                m_out_t1 := d; m_out_t2 := e;
                m_power_out := default (VInt 0) (telegram_of 20 0 !! "1-0:2.7.0") |}]
    else measurements (self (read_datagram ∅ (Some (payload 300 6 20 0)) meter init)) =
         measurements init.
Proof.
  apply (weekly_sample_on_the_period ∅ (payload 300 6 20 0) (meta_of 300 6)
           (telegram_of 20 0) (VFloat (F64.of_Z 300)) 300 meter init
           (Some (telegram_of 20 0)));
    vm_compute; reflexivity.
Defined.

(** X9. A call of [read_datagram] that returns has added the two powers of
    the telegram to the running lists.  When the time is in the first
    three seconds of a five-minute period and more than 10 seconds after
    the last close, or more than 300 seconds after the last close, it has
    then closed the window: one entry is appended to [csvdata] with the
    time, the sums of the registers and the two lists, this sample
    included; the lists are emptied and the time is the new last close.
    Otherwise [csvdata] and the last close are as before. *)
Theorem window_closes_on_the_test CONFIG data meta_info telegram start t from s r :
  data !! "meta" = Some meta_info ->
  data !! "telegram" = Some telegram ->
  meta_info !! "frame-start-time" = Some start ->
  py_int start = Ok t ->
  result (read_datagram CONFIG (Some data) from s) = Ok r ->
  let s' := self (read_datagram CONFIG (Some data) from s) in
  exists p_in,
    telegram !! "1-0:1.7.0" = Some p_in /\
    let p_out := default (VInt 0) (telegram !! "1-0:2.7.0") in
    if closes t (csvfm s) then
      exists a b c d totalO totalI,
        telegram !! "1-0:1.8.1" = Some a /\ telegram !! "1-0:1.8.2" = Some b /\
        py_add a b = Ok totalO /\
        telegram !! "1-0:2.8.1" = Some c /\ telegram !! "1-0:2.8.2" = Some d /\
        py_add c d = Ok totalI /\
        csvdata s' =
          csvdata s ++
            [{| epoch_time := t; power_watt := totalO;
                csvverbruiklist := csvverbruik s ++ [p_in];
                power_watt_levering := totalI;
                csvleveringlist := csvlevering s ++ [p_out] |}] /\
        csvverbruik s' = [] /\ csvlevering s' = [] /\ csvfm s' = t
    else
      csvdata s' = csvdata s /\
      csvverbruik s' = csvverbruik s ++ [p_in] /\
      csvlevering s' = csvlevering s ++ [p_out] /\
      csvfm s' = csvfm s.
Proof.
  intros Hm Ht Hs Hint H. cbn zeta.
  apply read_datagram_stages in H
    as (? & ? & ? & t' & s1 & s2 & s3 & Hm' & Ht' & Hs' & Hint' & _ & -> & _ & -> &
        _ & -> & Hbatch & -> & _).
  simplify_eq. assert (t' = t) as -> by congruence.
  set (s3 := self (rolling_buffer _ _ _)) in *.
  assert (csvdata s3 = csvdata s /\ csvverbruik s3 = csvverbruik s /\
          csvlevering s3 = csvlevering s /\ csvfm s3 = csvfm s) as (E1 & E2 & E3 & E4).
  { unfold s3. repeat split.
    - by rewrite (rolling_buffer_keeps csvdata), (weekly_sample_keeps csvdata),
        (track_sender_keeps csvdata).
    - by rewrite (rolling_buffer_keeps csvverbruik), (weekly_sample_keeps csvverbruik),
        (track_sender_keeps csvverbruik).
    - by rewrite (rolling_buffer_keeps csvlevering), (weekly_sample_keeps csvlevering),
        (track_sender_keeps csvlevering).
    - by rewrite (rolling_buffer_keeps csvfm), (weekly_sample_keeps csvfm),
        (track_sender_keeps csvfm). }
  apply periodic_batch_Ok in Hbatch as (p_in & p_out & H1 & H2 & Hrule).
  rewrite with_power_out_lookup in H2. rewrite with_power_out_other in H1 by done.
  simplify_eq. exists p_in. split; [done|]. cbn zeta in Hrule. rewrite E4 in Hrule.
  destruct (closes t (csvfm s)).
  - destruct Hrule as (a & b & c & d & totalO & totalI & Ha & Hb & HO & Hc & Hd & HI & ->).
    rewrite with_power_out_other in Ha, Hb, Hc, Hd by done.
    exists a, b, c, d, totalO, totalI. cbn. rewrite E1, E2, E3. repeat split; done.
  - rewrite Hrule. cbn. rewrite E1, E2, E3, E4. done.
Qed.

Lemma window_closes_on_the_test_witness :
  let s' := self (read_datagram ∅ (Some (payload 300 6 20 0)) meter init) in
  exists p_in,
    telegram_of 20 0 !! "1-0:1.7.0" = Some p_in /\
    let p_out := default (VInt 0) (telegram_of 20 0 !! "1-0:2.7.0") in
    if closes 300 (csvfm init) then
      exists a b c d totalO totalI,
        telegram_of 20 0 !! "1-0:1.8.1" = Some a /\ telegram_of 20 0 !! "1-0:1.8.2" = Some b /\
        py_add a b = Ok totalO /\
        telegram_of 20 0 !! "1-0:2.8.1" = Some c /\ telegram_of 20 0 !! "1-0:2.8.2" = Some d /\
        py_add c d = Ok totalI /\
        csvdata s' =
          csvdata init ++
            [{| epoch_time := 300; power_watt := totalO;
                csvverbruiklist := csvverbruik init ++ [p_in];
                power_watt_levering := totalI;
                csvleveringlist := csvlevering init ++ [p_out] |}] /\
        csvverbruik s' = [] /\ csvlevering s' = [] /\ csvfm s' = 300
    else
      csvdata s' = csvdata init /\
      csvverbruik s' = csvverbruik init ++ [p_in] /\
      csvlevering s' = csvlevering init ++ [p_out] /\
      csvfm s' = csvfm init.
Proof.
  apply (window_closes_on_the_test ∅ (payload 300 6 20 0) (meta_of 300 6)
           (telegram_of 20 0) (VFloat (F64.of_Z 300)) 300 meter init
           (Some (telegram_of 20 0)));
    vm_compute; reflexivity.
Defined.

(** X10. From the sender that the engine follows, a datagram is reported
    as a gap exactly when its frame number differs from the expected one;
    the number logged is the expected number minus the received one, so
    it is negative when telegrams were skipped.  In both cases the next
    expected number is the received one plus one, and the sender stays
    the same; this holds however the call ends. *)
Theorem gap_exactly_on_a_mismatch CONFIG data meta_info telegram n k from s :
  data !! "meta" = Some meta_info ->
  data !! "telegram" = Some telegram ->
  meta_info !! "frame-number" = Some (VInt n) ->
  who s = Some from ->
  telegram_framenumber s = VInt k ->
  let r := read_datagram CONFIG (Some data) from s in
  gaps (effects r) = (if n =? k then [] else [VInt (k - n)]) /\
  telegram_framenumber (self r) = VInt (n + 1) /\
  who (self r) = Some from.
Proof.
  intros Hm Ht Hn Hw Hk. cbn zeta. unfold read_datagram.
  rewrite (getitem_Some _ _ _ Hm), (getitem_Some _ _ _ Ht). run_M.
  rewrite run_bind, (track_sender_known _ n k) by done. cbn [result effects self].
  match goal with |- context [self (?c ?s1)] =>
    assert (emits no_gap c) as Hquiet;
    [|assert (stable (fun s' => telegram_framenumber s' = VInt (n + 1) /\ who s' = Some from) c)
        as Hkeep]
  end.
  { unfold weekly_sample, rolling_buffer, periodic_batch. emits_auto. }
  { unfold weekly_sample, rolling_buffer, periodic_batch. stable_with ltac:(cbn; done). }
  split.
  - unfold gaps. rewrite omap_app.
    match goal with |- context [omap ?f (effects ?x)] =>
      change (omap f (effects x)) with (gaps (effects x));
      rewrite (gaps_nil (effects x)) by apply Hquiet
    end.
    rewrite app_nil_r. by destruct (n =? k).
  - apply Hkeep. destruct (n =? k); cbn; by rewrite Hw.
Qed.

Lemma gap_exactly_on_a_mismatch_witness :
  let r := read_datagram ∅ (Some (payload 300 5 20 0)) meter following in
  gaps (effects r) = (if 5 =? 3 then [] else [VInt (3 - 5)]) /\
  telegram_framenumber (self r) = VInt (5 + 1) /\
  who (self r) = Some meter.
Proof.
  apply (gap_exactly_on_a_mismatch ∅ (payload 300 5 20 0) (meta_of 300 5)
           (telegram_of 20 0) 5 3 meter following);
    vm_compute; reflexivity.
Defined.

End EngineRules.

(* ===================================================================== *)
(** ** The exports *)
(* ===================================================================== *)

Module ExportFacts.
Import Py P1reader Exporters ReaderLogic ReaderFacts IngestFacts Fixtures Scenes.

Lemma interval_rows_written row es :
  interval_rows (Write_csv row :: Write_csv2 row :: es) = row :: interval_rows es.
Proof. done. Qed.

(** The loop of [print_csv]: the rows written are those of the entries,
    up to the first entry whose row cannot be made. *)
Lemma write_rows_rows entries s :
  let r := write_rows entries s in
  self r = s /\
  match result r with
  | Ok _ => Forall2 row_of entries (interval_rows (effects r))
  | Raise e =>
      exists done_ entry rest,
        entries = done_ ++ entry :: rest /\
        Forall2 row_of done_ (interval_rows (effects r)) /\
        interval_row entry = Raise e
  end.
Proof.
  cbn zeta. induction entries as [|entry rest IH]; cbn [write_rows].
  - split; [done|]. constructor.
  - destruct (interval_row entry) as [row|e] eqn:E; run_M.
    + rewrite interval_rows_written. destruct IH as [IH1 IH2]. split; [done|].
      destruct (result (write_rows rest s)) as [[]|e].
      * by constructor.
      * destruct IH2 as (done_ & entry' & rest' & -> & H1 & H2).
        exists (entry :: done_), entry', rest'. split; [done|]. split; [|done].
        by constructor.
    + split; [done|]. exists [], entry, rest. repeat split; [constructor|done].
Qed.

Lemma print_csv_run s :
  (3 <= length (csvdata s))%nat ->
  print_csv s = (write_rows (csvdata s);; modify (set_csvdata [])) s.
Proof.
  intros H. unfold print_csv. rewrite run_get.
  destruct (Z.ltb_spec (Z.of_nat (length (csvdata s))) 3); [lia|done].
Qed.

Lemma gt_int e mx : py_gt (VInt e) (VInt mx) = Ok (mx <? e).
Proof.
  cbn. change (2 ^ (0 - 0 `min` 0)) with 1. rewrite !Z.mul_1_r. f_equal.
  destruct (Z.compare_spec e mx), (Z.ltb_spec mx e); try done; lia.
Qed.

Lemma lt_int e mn : py_lt (VInt e) (VInt mn) = Ok (e <? mn).
Proof.
  cbn. change (2 ^ (0 - 0 `min` 0)) with 1. by rewrite !Z.mul_1_r.
Qed.

Lemma stats_loop_ints l : forall n mn mx sm,
  stats_loop (map VInt l) {| N := n; vmin := VInt mn; vmax := VInt mx; vsum := VInt sm |} =
  Ok {| N := n + Z.of_nat (length l);
        vmin := VInt (fold_left Z.min l mn);
        vmax := VInt (fold_left Z.max l mx);
        vsum := VInt (fold_left Z.add l sm) |}.
Proof.
  induction l as [|e l IH]; intros n mn mx sm.
  - cbn. by rewrite Z.add_0_r.
  - cbn [map stats_loop length fold_left]. unfold stats_step.
    cbn [vmax vmin vsum N]. rewrite gt_int, lt_int. cbn [mbind outcome_bind py_add].
    replace (if mx <? e then VInt e else VInt mx) with (VInt (Z.max mx e))
      by (destruct (Z.ltb_spec mx e); f_equal; lia).
    replace (if e <? mn then VInt e else VInt mn) with (VInt (Z.min mn e))
      by (destruct (Z.ltb_spec e mn); f_equal; lia).
    cbn. rewrite IH. do 2 f_equal. lia.
Qed.

Lemma fold_min_le l : forall a, fold_left Z.min l a <= a /\
  Forall (fun e => fold_left Z.min l a <= e) l /\
  (fold_left Z.min l a = a \/ In (fold_left Z.min l a) l).
Proof.
  induction l as [|e l IH]; intros a; cbn [fold_left].
  - split; [lia|]. split; [constructor|by left].
  - destruct (IH (Z.min a e)) as (H1 & H2 & H3). split; [lia|]. split.
    + constructor; [lia|done].
    + destruct H3 as [H3|H3]; [|right; by right].
      destruct (Z.min_spec a e) as [[? E]|[? E]].
      * left. by rewrite H3.
      * right. left. by rewrite H3.
Qed.

Lemma fold_max_ge l : forall a, a <= fold_left Z.max l a /\
  Forall (fun e => e <= fold_left Z.max l a) l /\
  (fold_left Z.max l a = a \/ In (fold_left Z.max l a) l).
Proof.
  induction l as [|e l IH]; intros a; cbn [fold_left].
  - split; [lia|]. split; [constructor|by left].
  - destruct (IH (Z.max a e)) as (H1 & H2 & H3). split; [lia|]. split.
    + constructor; [lia|done].
    + destruct H3 as [H3|H3]; [|right; by right].
      destruct (Z.max_spec a e) as [[? E]|[? E]].
      * right. left. by rewrite H3.
      * left. by rewrite H3.
Qed.

(** The loop of [sorted_rows] once a run has been started. *)
Lemma sorted_rows_runs_fold rows : forall sorted row0 rest,
  Forall same_ten_seconds sorted ->
  Forall (fun row => row.1.1 / 10 = row0.1.1 / 10) (row0 :: rest) ->
  let out := fold_left sorted_rows_step rows (sorted, row0 :: rest, row0.1.1) in
  Forall same_ten_seconds out.1.1 /\
  same_ten_seconds out.1.2 /\
  concat out.1.1 ++ out.1.2 = concat sorted ++ (row0 :: rest) ++ rows.
Proof.
  induction rows as [|row rows IH]; intros sorted row0 rest Hs Hr; cbn [fold_left].
  - cbn. split; [done|]. split; [by exists row0, rest|]. by rewrite app_nil_r.
  - destruct (Z.eqb_spec (row0.1.1 / 10) (row.1.1 / 10)) as [E|E].
    + assert (sorted_rows_step (sorted, row0 :: rest, row0.1.1) row =
              (sorted, row0 :: (rest ++ [row]), row0.1.1)) as ->
        by (unfold sorted_rows_step; by rewrite (proj2 (Z.eqb_eq _ _) E)).
      destruct (IH sorted row0 (rest ++ [row]) Hs) as (H1 & H2 & H3).
      { change (row0 :: (rest ++ [row])) with ((row0 :: rest) ++ [row]).
        apply Forall_app. split; [done|]. constructor; [done|constructor]. }
      split; [done|]. split; [done|]. cbn zeta in H3. rewrite H3.
      change (row0 :: (rest ++ [row])) with ((row0 :: rest) ++ [row]).
      by rewrite <- !app_assoc.
    + assert (sorted_rows_step (sorted, row0 :: rest, row0.1.1) row =
              (sorted ++ [row0 :: rest], [row], row.1.1)) as ->
        by (unfold sorted_rows_step; by rewrite (proj2 (Z.eqb_neq _ _) E)).
      destruct (IH (sorted ++ [row0 :: rest]) row []) as (H1 & H2 & H3).
      { apply Forall_app. split; [done|]. constructor; [|constructor].
        by exists row0, rest. }
      { by constructor. }
      split; [done|]. split; [done|]. cbn zeta in H3. etrans; [exact H3|].
      rewrite concat_app. cbn [concat]. rewrite app_nil_r. by rewrite <- !app_assoc.
Qed.

Lemma sorted_rows_first row0 rest :
  sorted_rows (row0 :: rest) =
  Some (fold_left sorted_rows_step rest ([], [row0], row0.1.1)).1.1.
Proof.
  unfold sorted_rows. cbn [fold_left].
  assert (E : sorted_rows_step ([], [], row0.1.1) row0 = ([], [row0], row0.1.1))
    by (unfold sorted_rows_step; by rewrite Z.eqb_refl).
  by rewrite E.
Qed.

(** The loop of [flush_data]: the lines written are those of the
    measurements, up to the first one that cannot be formatted. *)
Lemma write_measurements_lines ms :
  match (write_measurements ms).2 with
  | Ok _ => Forall2 line_of ms (write_measurements ms).1
  | Raise e =>
      exists written m rest,
        ms = written ++ m :: rest /\
        Forall2 line_of written (write_measurements ms).1 /\
        format_measurement m = Raise e
  end.
Proof.
  induction ms as [|m ms IH]; cbn [write_measurements]; [constructor|].
  destruct (format_measurement m) as [line|e] eqn:E.
  - destruct (write_measurements ms) as [lines [[]|e]]; cbn [fst snd] in *.
    + by constructor.
    + destruct IH as (written & m' & rest & -> & H1 & H2).
      exists (m :: written), m', rest. split; [done|]. split; [|done]. by constructor.
  - exists [], m, ms. repeat split; [constructor|done].
Qed.

Lemma header_is_written : exists ws, write_header = (ws, Ok tt).
Proof. eexists. vm_compute. reflexivity. Qed.

Lemma cells_app ws ws' : cells (ws ++ ws') = cells ws ++ cells ws'.
Proof. apply omap_app. Qed.

Lemma header_has_no_cells : cells write_header.1 = [].
Proof. vm_compute. reflexivity. Qed.

Lemma cells_of_row d :
  cells (map (fun element => Write_cell (cell d element)) P1_KEYS) = map (cell d) P1_KEYS.
Proof.
  unfold cells. induction P1_KEYS as [|k ks IH]; [done|]. cbn. by rewrite IH.
Qed.

Lemma localtime_not_KeyError v : localtime v <> Raise KeyError.
Proof. destruct v as [z|f|s]; cbn; [done| |done]. destruct (F64.floor f); [done|]. by destruct f. Qed.

(** The loop over the datagrams. *)
Lemma write_datagrams_cells datagrams :
  match (write_datagrams datagrams).2 with
  | Ok _ =>
      Forall writable datagrams /\
      cells (write_datagrams datagrams).1 = concat (map (fun entry => cells_of entry.2) datagrams)
  | Raise e =>
      e <> KeyError /\
      exists written entry rest,
        datagrams = written ++ entry :: rest /\
        Forall writable written /\
        refused e entry /\
        cells (write_datagrams datagrams).1 =
          concat (map (fun entry => cells_of entry.2) written)
  end.
Proof.
  induction datagrams as [|[t d] rest IH]; cbn [write_datagrams].
  - cbn. split; [constructor|done].
  - unfold write_datagram.
    destruct (localtime t) as [secs|e] eqn:E.
    + destruct d as [d|]; cbn [and_then snd fst].
      * assert (writable (t, Some d)) as Hw by (split; [by exists secs|done]).
        assert (forall ws,
                  cells ((Write_time secs
                            :: map (fun element => Write_cell (cell d element)) P1_KEYS
                            ++ [Write_text (String "010" EmptyString)]) ++ ws) =
                  cells_of (Some d) ++ cells ws) as Hrow.
        { intros ws. change (Write_time secs :: ?l) with ([Write_time secs] ++ l).
          rewrite !cells_app, cells_of_row. cbn [cells_of]. by rewrite app_nil_r. }
        destruct (write_datagrams rest) as [ws [[]|e]]; cbn [fst snd] in *.
        -- destruct IH as [H1 H2]. split; [by constructor|].
           cbn [map concat snd]. by rewrite <- H2, Hrow.
        -- destruct IH as (H0 & written & entry & rest' & -> & H1 & H2 & H3).
           split; [done|]. exists ((t, Some d) :: written), entry, rest'.
           split; [done|]. split; [by constructor|]. split; [done|].
           cbn [map concat snd]. by rewrite <- H3, Hrow.
      * split; [done|]. exists [], (t, None), rest.
        split; [done|]. split; [constructor|]. split; [|done].
        right. cbn. eauto.
    + cbn [fst snd]. split; [by intros ->; eapply localtime_not_KeyError|].
      exists [], (t, d), rest. split; [done|]. split; [constructor|]. split; [|done].
      by left.
Qed.

(** The float that [0.25 * flushperiod] is for the default periods. *)
Lemma grace_default P thr :
  In (P, thr) default_schedules ->
  exists m e,
    py_mul (VFloat quarter) (VInt P) = Ok (VFloat (S754_finite false m e)) /\
    e <= 0 /\ 4 * Zpos m = P * 2 ^ (- e).
Proof.
  intros H. cbn in H.
  destruct H as [[= <- <-]|[[= <- <-]|[[= <- <-]|[[= <- <-]|[]]]]];
    eexists _, _; (split; [vm_compute; reflexivity|]); vm_compute; split; congruence.
Qed.

(** The test of [main] on the default schedules, in integers. *)
Lemma due_default P thr now last :
  In (P, thr) default_schedules ->
  due now (VInt last) P thr = Ok ((now mod P <? thr) && (P <? 4 * (now - last))).
Proof.
  intros H. destruct (grace_default P thr H) as (m & e & Hg & He & Hm).
  assert (P <> 0) as HP.
  { cbn in H. destruct H as [[= <- <-]|[[= <- <-]|[[= <- <-]|[[= <- <-]|[]]]]]; done. }
  unfold due. destruct (Z.eqb_spec P 0); [done|].
  destruct (now mod P <? thr); [|done]. cbn [andb py_sub mbind outcome_bind].
  rewrite Hg. cbn [mbind outcome_bind].
  unfold py_gt, py_compare. cbn [as_num num_of_float num_compare cond_Zopp mbind outcome_bind].
  f_equal. rewrite (Z.min_r 0 e) by lia. rewrite Z.sub_diag.
  change (2 ^ 0) with 1. rewrite Z.mul_1_r.
  replace (0 - e) with (- e) by lia.
  assert (0 < 2 ^ (- e)) by (apply Z.pow_pos_nonneg; lia).
  destruct (Z.compare_spec ((now - last) * 2 ^ (- e)) (Z.pos m)),
           (Z.ltb_spec P (4 * (now - last))); try done; nia.
Qed.

End ExportFacts.

Module ExportRules.
Import Py P1reader Exporters ReaderLogic ReaderFacts IngestFacts ExportFacts Fixtures Scenes.

(** X11. A call of [print_csv] on three or more windows that returns has
    written one row for every window, in order, and has emptied
    [csvdata]; nothing else of the object has changed. *)
Theorem print_csv_writes_every_window s :
  (3 <= length (csvdata s))%nat ->
  result (print_csv s) = Ok tt ->
  Forall2 row_of (csvdata s) (interval_rows (effects (print_csv s))) /\
  self (print_csv s) = set_csvdata [] s.
Proof.
  intros Hlen Hres. rewrite print_csv_run in * by done.
  destruct (write_rows_rows (csvdata s) s) as [Hself Hrows]. cbn zeta in *.
  rewrite run_bind in *.
  destruct (result (write_rows (csvdata s) s)) as [[]|e] eqn:E; [|done].
  cbn. rewrite app_nil_r, Hself. done.
Qed.

Lemma print_csv_writes_every_window_witness :
  (3 <= length (csvdata (holding [closed_window; closed_window; closed_window])))%nat /\
  result (print_csv (holding [closed_window; closed_window; closed_window])) = Ok tt /\
  Forall2 row_of [closed_window; closed_window; closed_window]
    (interval_rows (effects (print_csv (holding [closed_window; closed_window; closed_window])))) /\
  self (print_csv (holding [closed_window; closed_window; closed_window])) = init.
Proof.
  assert (H3 : (3 <= length (csvdata (holding [closed_window; closed_window; closed_window])))%nat)
    by (cbn; lia).
  assert (Hr : result (print_csv (holding [closed_window; closed_window; closed_window])) = Ok tt)
    by (vm_compute; reflexivity).
  split; [exact H3|]. split; [exact Hr|].
  exact (print_csv_writes_every_window _ H3 Hr).
Defined.

(** X12. A call of [print_csv] that raises leaves the object as it was:
    [csvdata] still holds every window, also the windows whose rows the
    call has written already, which are those before the first window
    whose row cannot be made. *)
Theorem print_csv_failure_keeps_windows s e :
  result (print_csv s) = Raise e ->
  self (print_csv s) = s /\
  exists written entry rest,
    csvdata s = written ++ entry :: rest /\
    Forall2 row_of written (interval_rows (effects (print_csv s))) /\
    interval_row entry = Raise e.
Proof.
  unfold print_csv. rewrite run_get. case_match; [done|].
  destruct (write_rows_rows (csvdata s) s) as [Hself Hrows]. cbn zeta in *.
  rewrite run_bind.
  destruct (result (write_rows (csvdata s) s)) as [[]|e'] eqn:E; [done|].
  cbn. intros [= ->]. split; [done|]. exact Hrows.
Qed.

Lemma print_csv_failure_keeps_windows_witness :
  result (print_csv (holding [closed_window; text_window; closed_window])) = Raise TypeError /\
  self (print_csv (holding [closed_window; text_window; closed_window])) =
    holding [closed_window; text_window; closed_window] /\
  interval_rows (effects (print_csv (holding [closed_window; text_window; closed_window]))) =
    [closed_row].
Proof.
  assert (Hr : result (print_csv (holding [closed_window; text_window; closed_window])) =
               Raise TypeError) by (vm_compute; reflexivity).
  split; [exact Hr|]. split.
  - exact (proj1 (print_csv_failure_keeps_windows _ _ Hr)).
  - vm_compute; reflexivity.
Defined.

(** X13. On integer samples the statistics loop of [print_csv] counts the
    samples, adds them up, and yields the least of 999999 and the samples
    as the minimum and the greatest of 0 and the samples as the maximum:
    the minimum is never above 999999 and the maximum never below 0,
    whatever the samples. *)
Theorem stats_of_integer_samples (l : list Z) :
  exists mn mx,
    stats_loop (map VInt l) stats0 =
      Ok {| N := Z.of_nat (length l); vmin := VInt mn; vmax := VInt mx;
            vsum := VInt (fold_left Z.add l 0) |} /\
    mn <= 999999 /\ Forall (fun e => mn <= e) l /\ (mn = 999999 \/ In mn l) /\
    0 <= mx /\ Forall (fun e => e <= mx) l /\ (mx = 0 \/ In mx l).
Proof.
  exists (fold_left Z.min l 999999), (fold_left Z.max l 0).
  split; [apply (stats_loop_ints l 0)|].
  destruct (fold_min_le l 999999) as (? & ? & ?).
  destruct (fold_max_ge l 0) as (? & ? & ?). done.
Qed.

(** X14. [sorted_rows] cuts the rows, in their order, into runs: every run
    it returns begins with a row and has only rows taken in the ten
    seconds of that first row, and the rows are the returned runs
    followed by one more such run, which is not returned. *)
Theorem sorted_rows_cuts_at_ten_seconds rows runs :
  sorted_rows rows = Some runs ->
  Forall same_ten_seconds runs /\
  exists last, same_ten_seconds last /\ rows = concat runs ++ last.
Proof.
  destruct rows as [|row0 rest]; [done|]. rewrite sorted_rows_first. intros [= <-].
  destruct (sorted_rows_runs_fold rest [] row0 []) as (H1 & H2 & H3);
    [constructor|by repeat constructor|].
  split; [done|]. eexists. split; [exact H2|]. symmetry. exact H3.
Qed.

Lemma sorted_rows_cuts_at_ten_seconds_witness :
  Forall same_ten_seconds [map nth_row (seq 0 10); map nth_row (seq 10 10)] /\
  exists last,
    same_ten_seconds last /\
    rows25 = concat [map nth_row (seq 0 10); map nth_row (seq 10 10)] ++ last.
Proof.
  apply (sorted_rows_cuts_at_ten_seconds rows25
           [map nth_row (seq 0 10); map nth_row (seq 10 10)]).
  vm_compute. reflexivity.
Defined.

(** X15. [flush_data] is all or nothing for the object: when it returns,
    it has written one line for every measurement, in order, and
    [measurements] is empty; when it raises, the object is as before,
    [measurements] included, although the lines of the measurements
    before the offending one have been written. *)
Theorem flush_data_clears_only_on_success s :
  match flushed_outcome (flush_data s) with
  | Ok _ =>
      Forall2 line_of (measurements s) (flushed_lines (flush_data s)) /\
      flushed_meter (flush_data s) = set_measurements [] s
  | Raise e =>
      flushed_meter (flush_data s) = s /\
      exists written m rest,
        measurements s = written ++ m :: rest /\
        Forall2 line_of written (flushed_lines (flush_data s)) /\
        format_measurement m = Raise e
  end.
Proof.
  unfold flush_data. pose proof (write_measurements_lines (measurements s)) as H.
  destruct (write_measurements (measurements s)) as [lines [[]|e]]; cbn in *; done.
Qed.

(** X16. [write_to_csv_file] returns exactly when every datagram is a
    telegram with a time that [time.localtime] accepts, and has then
    written, for each datagram in order, the values of the 36 keys of
    [P1_KEYS], the empty string for a key the telegram lacks.  Otherwise
    it raises on the first datagram that is not such a one, with the
    error of that datagram, after the cells of the datagrams before it.
    It never raises [KeyError], also when it writes the header: every key
    of [P1_KEYS] has a friendly name. *)
Theorem details_rows_or_first_failure csv_file_exists datagrams :
  match (write_to_csv_file csv_file_exists datagrams).2 with
  | Ok _ =>
      Forall writable datagrams /\
      cells (write_to_csv_file csv_file_exists datagrams).1 =
        concat (map (fun entry => cells_of entry.2) datagrams)
  | Raise e =>
      e <> KeyError /\
      exists written entry rest,
        datagrams = written ++ entry :: rest /\
        Forall writable written /\
        refused e entry /\
        cells (write_to_csv_file csv_file_exists datagrams).1 =
          concat (map (fun entry => cells_of entry.2) written)
  end.
Proof.
  unfold write_to_csv_file. pose proof (write_datagrams_cells datagrams) as H.
  destruct csv_file_exists.
  - cbn [and_then fst snd app]. exact H.
  - destruct header_is_written as [ws Hws]. pose proof header_has_no_cells as Hc.
    rewrite Hws in *. cbn [and_then fst snd] in *.
    destruct (write_datagrams datagrams).2; by rewrite cells_app, Hc.
Qed.

(** X17. With the default periods and thresholds of [main], and the last
    export made in the first seconds of a period (as every export after
    the first is), the next export is due exactly when the clock is in
    the first seconds of a later period: once a period, and in every
    period in which the loop runs during those seconds. *)
Theorem export_is_due_once_a_period P thr now last :
  In (P, thr) default_schedules ->
  last mod P < thr ->
  due now (VInt last) P thr = Ok ((now mod P <? thr) && (last / P <? now / P)).
Proof.
  intros H Hlast. rewrite due_default by done. f_equal.
  cbn in H.
  destruct H as [[= <- <-]|[[= <- <-]|[[= <- <-]|[[= <- <-]|[]]]]];
    (match goal with |- ((?a <? ?b) && _) = _ => destruct (Z.ltb_spec a b) end;
     cbn [andb]; [|done]);
    match goal with |- (?a <? ?b) = (?c <? ?d) =>
      destruct (Z.ltb_spec a b), (Z.ltb_spec c d); try done;
      exfalso; Z.div_mod_to_equations; lia
    end.
Qed.

Lemma export_is_due_once_a_period_witness :
  due 3601 (VInt 1800) 1800 5 = Ok ((3601 mod 1800 <? 5) && (1800 / 1800 <? 3601 / 1800)).
Proof.
  apply (export_is_due_once_a_period 1800 5 3601 1800).
  - cbn. tauto.
  - reflexivity.
Defined.

End ExportRules.
